(** * dicegame.py: a provably fair non-transitive dice game

    A shallow embedding of [src/dicegame.py] and the properties its
    specification states about it.

    Conventions of the embedding.
    - Python integers are [Z]; Python [str] values are [string], read as
      sequences of code points below 256; [bytes] values are [list byte].
    - A call that can raise returns a [result]; the exceptions are the ones
      the program can meet: [SystemExit], [ValueError], [IndexError],
      [EOFError] (from [input] at end of input).
    - The console is a list of [event]s: every [print] is a [Print] of a
      structured message carrying the interpolated values, every [input] is
      an [Input] of the line read, and every evaluation of [hmac.new] is an
      [Hmac] event.
    - The operating system's randomness is an oracle [rng]; the program
      draws from it wherever the source calls [secrets] or [random].
    - The interpreter's recursion limit and its limit on the length of
      decimal literals are not modelled. *)

From Stdlib Require Import ZArith NArith List String Ascii Bool Lia.
From Stdlib Require Import DecimalString DecimalZ DecimalN DecimalPos.
From Stdlib Require Strings.Byte.
Import ListNotations.

Local Open Scope string_scope.
Local Open Scope list_scope.
Local Open Scope Z_scope.

Definition byte : Set := Byte.byte.

(** ** Exceptions and results *)

(** What a [ValueError] of this program is about. *)
Inductive value_error : Type :=
| InvalidLiteral (s : string)      (* int(s) *)
| InvalidFaceValue (v : Z)         (* Dice.__init__ *)
| UpperBoundNotPositive            (* secrets.randbelow *).

Inductive exn : Type :=
| SystemExit (code : Z)
| ValueError (why : value_error)
| IndexError
| TypeError
| ZeroDivisionError
| EOFError.

Inductive result (A : Type) : Type :=
| Ret (a : A)
| Raise (e : exn).

Arguments Ret {A} a.
Arguments Raise {A} e.

Definition returned {A} (r : result A) : bool :=
  match r with Ret _ => true | Raise _ => false end.

(** ** The Python primitives the program relies on *)

Module Py.

(** [str(n)] for an integer. *)
Definition str (n : Z) : string := NilZero.string_of_int (Z.to_int n).

(** [s.encode()] on a string of code points below 128, as the decimal
    strings of the program are. *)
Definition encode (s : string) : list byte := list_byte_of_string s.

Definition code (c : ascii) : N := N_of_ascii c.

(** The decimal digits [int] accepts. *)
Definition digit_value (c : ascii) : option Z :=
  let n := code c in
  if ((48 <=? n) && (n <=? 57))%N then Some (Z.of_N (n - 48)) else None.

(** [c.isdigit()]: the decimal digits and, below 256, the superscripts
    two, three and one, which [int] rejects. *)
Definition isdigit_char (c : ascii) : bool :=
  let n := code c in
  (((48 <=? n) && (n <=? 57)) || (n =? 178) || (n =? 179) || (n =? 185))%N.

Fixpoint all_chars (p : ascii -> bool) (s : string) : bool :=
  match s with
  | EmptyString => true
  | String c rest => p c && all_chars p rest
  end.

(** [s.isdigit()]: every character is a digit and there is at least one. *)
Definition isdigit (s : string) : bool :=
  match s with
  | EmptyString => false
  | String _ _ => all_chars isdigit_char s
  end.

(** White space, as [int] strips it (code points below 256). *)
Definition isspace_char (c : ascii) : bool :=
  let n := code c in
  (((9 <=? n) && (n <=? 13)) || (n =? 32) || (n =? 133) || (n =? 160))%N.

Fixpoint lstrip (s : string) : string :=
  match s with
  | EmptyString => EmptyString
  | String c rest => if isspace_char c then lstrip rest else s
  end.

Fixpoint rstrip (s : string) : string :=
  match s with
  | EmptyString => EmptyString
  | String c rest =>
      match rstrip rest with
      | EmptyString => if isspace_char c then EmptyString else String c EmptyString
      | kept => String c kept
      end
  end.

Definition strip (s : string) : string := rstrip (lstrip s).

(** The digits after the first one: each is a digit, or an underscore
    followed by a digit. *)
Fixpoint int_tail (acc : Z) (s : string) : option Z :=
  match s with
  | EmptyString => Some acc
  | String c rest =>
      match digit_value c with
      | Some d => int_tail (10 * acc + d) rest
      | None =>
          if Ascii.eqb c "_" then
            match rest with
            | String c' rest' =>
                match digit_value c' with
                | Some d => int_tail (10 * acc + d) rest'
                | None => None
                end
            | EmptyString => None
            end
          else None
      end
  end.

Definition int_magnitude (s : string) : option Z :=
  match s with
  | String c rest =>
      match digit_value c with
      | Some d => int_tail d rest
      | None => None
      end
  | EmptyString => None
  end.

(** [int(s)] in base ten: surrounding white space, an optional sign, digits
    with single underscores between them.  [None] is [ValueError]. *)
Definition int (s : string) : option Z :=
  match strip s with
  | String "-" rest => option_map Z.opp (int_magnitude rest)
  | String "+" rest => int_magnitude rest
  | body => int_magnitude body
  end.

(** [s.split(sep)] for a one-character separator. *)
Fixpoint split (sep : ascii) (s : string) : list string :=
  match s with
  | EmptyString => [EmptyString]
  | String c rest =>
      let parts := split sep rest in
      if Ascii.eqb c sep then EmptyString :: parts
      else match parts with
           | p :: ps => String c p :: ps
           | [] => [String c EmptyString]
           end
  end.

(** [l[i]]: a negative index counts from the end; [None] is [IndexError]. *)
Definition getitem {A} (l : list A) (i : Z) : option A :=
  let n := Z.of_nat (List.length l) in
  if 0 <=? i then nth_error l (Z.to_nat i)
  else if - n <=? i then nth_error l (Z.to_nat (n + i))
  else None.

(** [range(n)] as a list. *)
Definition range (n : Z) : list Z := map Z.of_nat (seq 0 (Z.to_nat n)).

(** [x in range(n)]. *)
Definition in_range (x n : Z) : bool := (0 <=? x) && (x <? n).

(** [l.remove(x)] for an [x] that occurs in [l]: the first occurrence
    goes. *)
Fixpoint remove (x : Z) (l : list Z) : list Z :=
  match l with
  | [] => []
  | y :: rest => if x =? y then rest else y :: remove x rest
  end.

Definition hex_digit (n : N) : ascii :=
  ascii_of_N (if (n <? 10)%N then 48 + n else 87 + n).

(** [b.hex()]: two lower-case hexadecimal digits per byte. *)
Fixpoint hex (b : list byte) : string :=
  match b with
  | [] => EmptyString
  | x :: rest =>
      let n := Byte.to_N x in
      String (hex_digit (n / 16)) (String (hex_digit (n mod 16)) (hex rest))
  end.

Definition hex_value (c : ascii) : option N :=
  let n := code c in
  if ((48 <=? n) && (n <=? 57))%N then Some (n - 48)%N
  else if ((97 <=? n) && (n <=? 102))%N then Some (n - 87)%N
  else if ((65 <=? n) && (n <=? 70))%N then Some (n - 55)%N
  else None.

(** [bytes.fromhex(s)] on a string without white space. *)
Fixpoint fromhex (s : string) : option (list byte) :=
  match s with
  | EmptyString => Some []
  | String hi (String lo rest) =>
      match hex_value hi, hex_value lo, fromhex rest with
      | Some h, Some l, Some tl =>
          option_map (fun x => x :: tl) (Byte.of_N (16 * h + l))
      | _, _, _ => None
      end
  | String _ EmptyString => None
  end.

End Py.

(** ** HMAC over SHA3-256, as [hmac.new(key, msg, hashlib.sha3_256)] computes it *)

Module Sha3.
Local Open Scope N_scope.

Definition lane_mask : N := 18446744073709551615.

Definition rotl (x : N) (n : N) : N :=
  N.land (N.lor (N.shiftl x n) (N.shiftr x (64 - n))) lane_mask.

Definition lane (st : list N) (x y : nat) : N := nth (x + 5 * y)%nat st 0.

Definition xy : list nat := seq 0 25.

Definition rotation_offsets : list N :=
  [ 0;  1; 62; 28; 27;
   36; 44;  6; 55; 20;
    3; 10; 43; 25; 39;
   41; 45; 15; 21;  8;
   18;  2; 61; 56; 14].

Definition round_constants : list N :=
  [0x0000000000000001; 0x0000000000008082; 0x800000000000808A;
   0x8000000080008000; 0x000000000000808B; 0x0000000080000001;
   0x8000000080008081; 0x8000000000008009; 0x000000000000008A;
   0x0000000000000088; 0x0000000080008009; 0x000000008000000A;
   0x000000008000808B; 0x800000000000008B; 0x8000000000008089;
   0x8000000000008003; 0x8000000000008002; 0x8000000000000080;
   0x000000000000800A; 0x800000008000000A; 0x8000000080008081;
   0x8000000000008080; 0x0000000080000001; 0x8000000080008008].

Definition theta (st : list N) : list N :=
  let c x := fold_left N.lxor (map (lane st x) (seq 0 5)) 0 in
  let d x := N.lxor (c ((x + 4) mod 5)%nat) (rotl (c ((x + 1) mod 5)%nat) 1) in
  map (fun i => N.lxor (nth i st 0) (d (i mod 5)%nat)) xy.

Definition rho_pi (st : list N) : list N :=
  map (fun i =>
         let x := (i mod 5)%nat in
         let y := (i / 5)%nat in
         let x0 := ((x + 3 * y) mod 5)%nat in
         rotl (lane st x0 x) (nth (x0 + 5 * x)%nat rotation_offsets 0)) xy.

Definition chi (st : list N) : list N :=
  map (fun i =>
         let x := (i mod 5)%nat in
         let y := (i / 5)%nat in
         N.lxor (lane st x y)
           (N.ldiff (lane st ((x + 2) mod 5)%nat y) (lane st ((x + 1) mod 5)%nat y))) xy.

Definition iota (rc : N) (st : list N) : list N :=
  match st with
  | a :: rest => N.lxor a rc :: rest
  | [] => []
  end.

Definition keccak_round (st : list N) (rc : N) : list N :=
  iota rc (chi (rho_pi (theta st))).

Definition keccak_f (st : list N) : list N :=
  fold_left keccak_round round_constants st.

Definition rate : nat := 136.

Fixpoint le_lane (bs : list N) : N :=
  match bs with
  | [] => 0
  | b :: rest => b + 256 * le_lane rest
  end.

Fixpoint lanes_of_bytes (n : nat) (bs : list N) : list N :=
  match n with
  | O => []
  | S n' => le_lane (firstn 8 bs) :: lanes_of_bytes n' (skipn 8 bs)
  end.

Fixpoint bytes_of_lane (n : nat) (l : N) : list N :=
  match n with
  | O => []
  | S n' => l mod 256 :: bytes_of_lane n' (l / 256)
  end.

Fixpoint xor_lanes (st blk : list N) : list N :=
  match st, blk with
  | a :: st', b :: blk' => N.lxor a b :: xor_lanes st' blk'
  | _, [] => st
  | [], _ => []
  end.

Definition absorb_block (st : list N) (blk : list N) : list N :=
  keccak_f (xor_lanes st (lanes_of_bytes 17 blk)).

(** The message with the SHA-3 domain bits and the pad10*1 padding, as
    whole blocks of [rate] bytes. *)
Definition pad (msg : list N) : list N :=
  let q := (rate - (List.length msg mod rate))%nat in
  match q with
  | 1%nat => msg ++ [0x86]
  | _ => msg ++ [0x06] ++ repeat 0 (q - 2) ++ [0x80]
  end.

Fixpoint absorb (blocks : nat) (st : list N) (data : list N) : list N :=
  match blocks with
  | O => st
  | S k => absorb k (absorb_block st (firstn rate data)) (skipn rate data)
  end.

Definition sha3_256_N (msg : list N) : list N :=
  let data := pad msg in
  let st := absorb (List.length data / rate) (repeat 0 25) data in
  flat_map (bytes_of_lane 8) (firstn 4 st).

Definition to_byte (n : N) : byte :=
  match Byte.of_N n with Some b => b | None => Byte.x00 end.

Definition sha3_256 (msg : list byte) : list byte :=
  map to_byte (sha3_256_N (map Byte.to_N msg)).

Definition block_size : nat := rate.

(** [hmac.new(key, msg, hashlib.sha3_256).digest()]. *)
Definition hmac_sha3_256 (key msg : list byte) : list byte :=
  let k0 := if (block_size <? List.length key)%nat then sha3_256 key else key in
  let k := map Byte.to_N k0 ++ repeat 0 (block_size - List.length k0) in
  let ipad := map (fun b => to_byte (N.lxor b 0x36)) k in
  let opad := map (fun b => to_byte (N.lxor b 0x5c)) k in
  sha3_256 (opad ++ sha3_256 (ipad ++ msg)).
End Sha3.

Arguments Sha3.hmac_sha3_256 : simpl never.

(** ** The console and the randomness of the process *)

Inductive message : Type :=
| ChooseYourDice (name : string)                        (* line 42 *)
| DiceOption (idx : Z) (values : list Z)                (* line 44 *)
| InvalidSelection                                      (* lines 48, 118 *)
| ChoseDice (name : string) (values : list Z)           (* line 52 *)
| NeedThreeDice                                         (* lines 59, 159 *)
| UsageExample                                          (* lines 60, 160 *)
| ErrorMessage (e : value_error)                        (* line 66 *)
| DetermineFirst                                        (* line 73 *)
| Selected (upper : Z) (hmac : string)                  (* lines 76, 104 *)
| TryToGuess                                            (* line 77 *)
| GuessMenu                                             (* line 79 *)
| InvalidInput                                          (* line 87 *)
| MySelection (num : Z) (key : string)                  (* line 91 *)
| YouGoFirst                                            (* line 94 *)
| IGoFirst                                              (* line 97 *)
| TimeForThrow (name : string)                          (* line 102 *)
| ChooseNumberToAdd                                     (* line 106 *)
| NumberOption (i : Z)                                  (* line 108 *)
| ExitOption (n : Z)                                    (* line 109 *)
| HelpOption (n : Z)                                    (* line 110 *)
| MyNumber (face : Z) (key : string)                    (* line 123 *)
| TheResult (face user_add final_index modulo : Z)      (* line 124 *)
| IMoveFirst                                            (* line 132 *)
| IChooseDice (values : list Z)                         (* lines 136, 142 *)
| MyThrow (v : Z)                                       (* line 147 *)
| YourThrow (v : Z)                                     (* line 148 *)
| YouWin                                                (* line 151 *)
| IWin                                                  (* line 153 *)
| Tie                                                   (* line 155 *).

Inductive event : Type :=
| Print (m : message)
| Input (line : string)
| Hmac (key msg : list byte).

(** The randomness oracle: the [cursor]-th draw is the next one. *)
Record rng : Type := { draws : nat -> N; cursor : nat }.

Definition draw (g : rng) : N * rng :=
  (draws g (cursor g), {| draws := draws g; cursor := S (cursor g) |}).

Record world : Type := { gen : rng; stdin : list string }.

(** A run: what reached the console, how the call ended, what is left of
    the world. *)
Definition run (A : Type) : Type := list event * (result A * world).

Definition ret {A} (a : A) (w : world) : run A := ([], (Ret a, w)).

Definition raise {A} (e : exn) (w : world) : run A := ([], (Raise e, w)).

Definition say {A} (evs : list event) (r : run A) : run A :=
  (evs ++ fst r, snd r).

Definition bind {A B} (r : run A) (k : A -> world -> run B) : run B :=
  match r with
  | (evs, (Ret a, w)) => say evs (k a w)
  | (evs, (Raise e, w)) => (evs, (Raise e, w))
  end.

Definition trace {A} (r : run A) : list event := fst r.

Definition outcome {A} (r : run A) : result A := fst (snd r).

Definition print {A} (m : message) (r : run A) : run A := say [Print m] r.

Module secrets.

(** [secrets.token_bytes(n)]: the [n] low bytes of a draw. *)
Definition token_bytes (n : nat) (g : rng) : list byte * rng :=
  let (r, g') := draw g in
  (map Sha3.to_byte (Sha3.bytes_of_lane n r), g').

(** [secrets.randbelow(limit)]: a draw reduced into [[0, limit)]. *)
Definition randbelow (limit : Z) (g : rng) : result Z * rng :=
  if limit <=? 0 then (Raise (ValueError UpperBoundNotPositive), g)
  else let (r, g') := draw g in (Ret (Z.of_N r mod limit), g').

End secrets.

Module random.

(** [random.choice(seq)]. *)
Definition choice {A} (l : list A) (g : rng) : result A * rng :=
  match l with
  | [] => (Raise IndexError, g)
  | _ :: _ =>
      let (r, g') := draw g in
      match nth_error l (N.to_nat r mod List.length l) with
      | Some a => (Ret a, g')
      | None => (Raise IndexError, g')
      end
  end.

End random.

(** ** class FairRandom *)

Module FairRandom.

(** [generate_secure_random(limit)], lines 11-15. *)
Definition generate_secure_random (limit : Z) (g : rng)
  : list event * (result (Z * string * string) * rng) :=
  let (key, g1) := secrets.token_bytes 32 g in
  match secrets.randbelow limit g1 with
  | (Raise e, g2) => ([], (Raise e, g2))
  | (Ret number, g2) =>
      let msg := Py.encode (Py.str number) in
      let hmac_hash := Py.hex (Sha3.hmac_sha3_256 key msg) in
      ([Hmac key msg], (Ret (number, Py.hex key, hmac_hash), g2))
  end.

(** [compute_modular_result(user_choice, computer_choice, limit)], line 19.
    Python's [%] takes the sign of the divisor, as [Z.modulo] does. *)
Definition compute_modular_result (user_choice computer_choice limit : Z) : result Z :=
  if limit =? 0 then Raise ZeroDivisionError
  else Ret ((user_choice + computer_choice) mod limit).

End FairRandom.

(** ** class Dice *)

Module Dice.

Record t : Type := { values : list Z }.

(** [Dice.__init__], lines 24-28: the first negative face raises.  Every
    value is an [int] here, so the [isinstance] test never fails. *)
Fixpoint check_faces (vs : list Z) : result unit :=
  match vs with
  | [] => Ret tt
  | value :: rest =>
      if value <? 0 then Raise (ValueError (InvalidFaceValue value))
      else check_faces rest
  end.

Definition init (vs : list Z) : result t :=
  match check_faces vs with
  | Ret _ => Ret {| values := vs |}
  | Raise e => Raise e
  end.

(** [Dice.roll(face_index)], line 31. *)
Definition roll (self : t) (face_index : Z) : result Z :=
  match Py.getitem (values self) face_index with
  | Some v => Ret v
  | None => Raise IndexError
  end.

End Dice.

(** ** class Player *)

Module Player.

Record t : Type := { name : string; dice_choice : option Z }.

(** [Player.__init__], lines 36-38. *)
Definition init (name : string) : t := {| name := name; dice_choice := None |}.

Definition menu (self : t) (available_dice : list Dice.t) : list event :=
  Print (ChooseYourDice (name self))
  :: map (fun '(idx, d) => Print (DiceOption idx (Dice.values d)))
         (combine (Py.range (Z.of_nat (List.length available_dice))) available_dice).

(** [Player.choose_dice(available_dice)], lines 40-52.  The call returns the
    player with [dice_choice] assigned; an invalid line is answered by the
    same call again, on the lines that follow. *)
Fixpoint choose_dice (self : t) (available_dice : list Dice.t)
  (lines : list string) (g : rng) {struct lines} : run t :=
  say (menu self available_dice)
    match lines with
    | [] => raise EOFError {| gen := g; stdin := [] |}
    | choice :: rest =>
        say [Input choice]
          (if negb (Py.isdigit choice) then
             print InvalidSelection (choose_dice self available_dice rest g)
           else
             match Py.int choice with
             | None => raise (ValueError (InvalidLiteral choice)) {| gen := g; stdin := rest |}
             | Some c =>
                 if negb (Py.in_range c (Z.of_nat (List.length available_dice))) then
                   print InvalidSelection (choose_dice self available_dice rest g)
                 else
                   match Py.getitem available_dice c with
                   | None => raise IndexError {| gen := g; stdin := rest |}
                   | Some d =>
                       print (ChoseDice (name self) (Dice.values d))
                         (ret {| name := name self; dice_choice := Some c |}
                              {| gen := g; stdin := rest |})
                   end
             end)
    end.

End Player.

(** ** class DiceGame *)

Inductive who : Type := TheUser | TheComputer.

Inductive verdict : Type := UserWins | ComputerWins | Draw.

Module DiceGame.

Record t : Type :=
  { dice : list Dice.t; user : Player.t; computer : Player.t }.

Definition player (self : t) (p : who) : Player.t :=
  match p with TheUser => user self | TheComputer => computer self end.

(** [[int(x) for x in d.split(",")]], line 64. *)
Fixpoint parse_faces (xs : list string) : result (list Z) :=
  match xs with
  | [] => Ret []
  | x :: rest =>
      match Py.int x with
      | None => Raise (ValueError (InvalidLiteral x))
      | Some v =>
          match parse_faces rest with
          | Ret vs => Ret (v :: vs)
          | Raise e => Raise e
          end
      end
  end.

(** [[Dice(...) for d in dice_sets]], line 64. *)
Fixpoint build_dice (dice_sets : list string) : result (list Dice.t) :=
  match dice_sets with
  | [] => Ret []
  | d :: rest =>
      match parse_faces (Py.split "," d) with
      | Raise e => Raise e
      | Ret vs =>
          match Dice.init vs with
          | Raise e => Raise e
          | Ret die =>
              match build_dice rest with
              | Ret ds => Ret (die :: ds)
              | Raise e => Raise e
              end
          end
      end
  end.

(** [DiceGame.__init__(dice_sets)], lines 57-70.  Only [ValueError] is
    caught at line 65. *)
Definition init (dice_sets : list string) : list event * result t :=
  if (List.length dice_sets <? 3)%nat then
    ([Print NeedThreeDice; Print UsageExample], Raise (SystemExit 1))
  else
    match build_dice dice_sets with
    | Raise (ValueError e) => ([Print (ErrorMessage e)], Raise (SystemExit 1))
    | Raise e => ([], Raise e)
    | Ret ds =>
        ([], Ret {| dice := ds;
                    user := Player.init "User";
                    computer := Player.init "Computer" |})
    end.

Definition guess_menu (comp_hmac : string) : list event :=
  [Print (Selected 1 comp_hmac); Print TryToGuess; Print GuessMenu].

(** [determine_first_turn()], lines 72-98. *)
Fixpoint determine_first_turn (lines : list string) (g : rng) {struct lines}
  : run who :=
  print DetermineFirst
    match FairRandom.generate_secure_random 2 g with
    | (evs, (Raise e, g1)) => say evs (raise e {| gen := g1; stdin := lines |})
    | (evs, (Ret (comp_num, comp_key, comp_hmac), g1)) =>
        say (evs ++ guess_menu comp_hmac)
          match lines with
          | [] => raise EOFError {| gen := g1; stdin := [] |}
          | user_guess :: rest =>
              say [Input user_guess]
                (if String.eqb user_guess "2" then
                   raise (SystemExit 0) {| gen := g1; stdin := rest |}
                 else if negb (Py.isdigit user_guess) then
                   print InvalidInput (determine_first_turn rest g1)
                 else
                   match Py.int user_guess with
                   | None =>
                       raise (ValueError (InvalidLiteral user_guess))
                             {| gen := g1; stdin := rest |}
                   | Some guess =>
                       if negb ((guess =? 0) || (guess =? 1)) then
                         print InvalidInput (determine_first_turn rest g1)
                       else
                         print (MySelection comp_num comp_key)
                           (if guess =? comp_num then
                              print YouGoFirst
                                (ret TheUser {| gen := g1; stdin := rest |})
                            else
                              print IGoFirst
                                (ret TheComputer {| gen := g1; stdin := rest |}))
                   end)
          end
    end.

Definition roll_menu (modulo : Z) (hmac_value : string) : list event :=
  [Print (Selected (modulo - 1) hmac_value); Print ChooseNumberToAdd]
  ++ map (fun i => Print (NumberOption i)) (Py.range modulo)
  ++ [Print (ExitOption modulo); Print (HelpOption (modulo + 1))].

(** [self.dice[player.dice_choice].roll(final_index)], line 126. *)
Definition roll_assigned (self : t) (p : who) (final_index : Z) : result Z :=
  match Player.dice_choice (player self p) with
  | None => Raise TypeError
  | Some c =>
      match Py.getitem (dice self) c with
      | None => Raise IndexError
      | Some d => Dice.roll d final_index
      end
  end.

(** [roll_dice(player, modulo=6)], lines 100-126. *)
Fixpoint roll_dice (self : t) (p : who) (modulo : Z)
  (lines : list string) (g : rng) {struct lines} : run Z :=
  print (TimeForThrow (Player.name (player self p)))
    match FairRandom.generate_secure_random modulo g with
    | (evs, (Raise e, g1)) => say evs (raise e {| gen := g1; stdin := lines |})
    | (evs, (Ret (face, key, hmac_value), g1)) =>
        say (evs ++ roll_menu modulo hmac_value)
          match lines with
          | [] => raise EOFError {| gen := g1; stdin := [] |}
          | user_add :: rest =>
              let w := {| gen := g1; stdin := rest |} in
              say [Input user_add]
                (if String.eqb user_add (Py.str modulo) then
                   raise (SystemExit 0) w
                 else if negb (Py.isdigit user_add) then
                   print InvalidSelection (roll_dice self p modulo rest g1)
                 else
                   match Py.int user_add with
                   | None => raise (ValueError (InvalidLiteral user_add)) w
                   | Some add =>
                       if negb (Py.in_range add modulo) then
                         print InvalidSelection (roll_dice self p modulo rest g1)
                       else
                         match FairRandom.compute_modular_result add face modulo with
                         | Raise e => raise e w
                         | Ret final_index =>
                             say [Print (MyNumber face key);
                                  Print (TheResult face add final_index modulo)]
                               match roll_assigned self p final_index with
                               | Ret v => ret v w
                               | Raise e => raise e w
                               end
                         end
                   end)
          end
    end.

(** The default of the [modulo] parameter of [roll_dice], line 100. *)
Definition default_modulo : Z := 6.

Definition set_choice (pl : Player.t) (c : Z) : Player.t :=
  {| Player.name := Player.name pl; Player.dice_choice := Some c |}.

(** [[self.dice[idx] for idx in available_dice]], line 137. *)
Fixpoint pick (ds : list Dice.t) (idxs : list Z) : result (list Dice.t) :=
  match idxs with
  | [] => Ret []
  | idx :: rest =>
      match Py.getitem ds idx, pick ds rest with
      | Some d, Ret tl => Ret (d :: tl)
      | None, _ => Raise IndexError
      | _, Raise e => Raise e
      end
  end.

(** [i != self.user.dice_choice], line 140. *)
Definition differs (i : Z) (choice : option Z) : bool :=
  match choice with
  | Some c => negb (i =? c)
  | None => true
  end.

Definition with_choices (self : t) (u : Player.t) (c : Z) : t :=
  {| dice := dice self; user := u; computer := set_choice (computer self) c |}.

(** Lines 131-142 of [play_round]: both players get their [dice_choice]. *)
Definition assign_dice (self : t) (first_turn : who) (w : world) : run t :=
  let all := Py.range (Z.of_nat (List.length (dice self))) in
  match first_turn with
  | TheComputer =>
      print IMoveFirst
        match random.choice all (gen w) with
        | (Raise e, g1) => raise e {| gen := g1; stdin := stdin w |}
        | (Ret c, g1) =>
            let available_dice := Py.remove c all in
            match Py.getitem (dice self) c, pick (dice self) available_dice with
            | Some d, Ret offered =>
                print (IChooseDice (Dice.values d))
                  (bind (Player.choose_dice (user self) offered (stdin w) g1)
                     (fun u w' => ret (with_choices self u c) w'))
            | None, _ => raise IndexError {| gen := g1; stdin := stdin w |}
            | Some d, Raise e =>
                print (IChooseDice (Dice.values d))
                  (raise e {| gen := g1; stdin := stdin w |})
            end
        end
  | TheUser =>
      bind (Player.choose_dice (user self) (dice self) (stdin w) (gen w))
        (fun u w' =>
           let available_dice :=
             filter (fun i => differs i (Player.dice_choice u)) all in
           match random.choice available_dice (gen w') with
           | (Raise e, g1) => raise e {| gen := g1; stdin := stdin w' |}
           | (Ret c, g1) =>
               match Py.getitem (dice self) c with
               | None => raise IndexError {| gen := g1; stdin := stdin w' |}
               | Some d =>
                   print (IChooseDice (Dice.values d))
                     (ret (with_choices self u c) {| gen := g1; stdin := stdin w' |})
               end
           end)
  end.

(** Lines 147-155. *)
Definition compare (comp_roll user_roll : Z) : list event * verdict :=
  let shown := [Print (MyThrow comp_roll); Print (YourThrow user_roll)] in
  if user_roll >? comp_roll then (shown ++ [Print YouWin], UserWins)
  else if user_roll <? comp_roll then (shown ++ [Print IWin], ComputerWins)
  else (shown ++ [Print Tie], Draw).

(** [play_round()], lines 128-155.  The run returns the game as the round
    left it and the verdict it printed. *)
Definition play_round (self : t) (w : world) : run (t * verdict) :=
  bind (determine_first_turn (stdin w) (gen w)) (fun first_turn w1 =>
  bind (assign_dice self first_turn w1) (fun self' w2 =>
  bind (roll_dice self' TheComputer default_modulo (stdin w2) (gen w2)) (fun comp_roll w3 =>
  bind (roll_dice self' TheUser default_modulo (stdin w3) (gen w3)) (fun user_roll w4 =>
  let (shown, v) := compare comp_roll user_roll in
  say shown (ret (self', v) w4))))).

End DiceGame.

(** The script, lines 157-164; [args] is [sys.argv[1:]]. *)
Definition main (args : list string) (w : world) : run (DiceGame.t * verdict) :=
  if (List.length args <? 3)%nat then
    say [Print NeedThreeDice; Print UsageExample] (raise (SystemExit 1) w)
  else
    match DiceGame.init args with
    | (evs, Raise e) => say evs (raise e w)
    | (evs, Ret game) => say evs (DiceGame.play_round game w)
    end.

(** ** What the specification says of a configuration

    A face is well formed when [int] reads it as a non-negative integer; a
    configuration is well formed when it has at least three dice and every
    face of every die is well formed.  Face counts play no part. *)

Definition face_ok (x : string) : bool :=
  match Py.int x with
  | Some v => 0 <=? v
  | None => false
  end.

Definition die_ok (d : string) : bool := forallb face_ok (Py.split "," d).

Definition config_ok (dice_sets : list string) : bool :=
  (3 <=? List.length dice_sets)%nat && forallb die_ok dice_sets.

Definition face_counts (game : DiceGame.t) : list nat :=
  map (fun d => List.length (Dice.values d)) (DiceGame.dice game).

(** An oracle that answers with the numbers of a list, then with zeros. *)
Definition rng_of (l : list N) : rng :=
  {| draws := fun i => nth i l 0%N; cursor := 0 |}.

(** ** The commit-reveal exchange as a protocol on the console

    The phases of one exchange, read off the events of a run.  [Sealed]: the
    digest has been computed and nothing is published yet.  [Committed]: the
    tag is on the console.  [Contributed]: the counterpart's line has been
    read.  [Revealed]: number and key are on the console and the announcement
    of the result is due. *)

Inductive phase : Type :=
| Idle
| Sealed (key msg : list byte)
| Committed (key msg : list byte)
| Contributed (key msg : list byte)
| Revealed (roll : bool).

(** The number and key shown are the committed ones. *)
Definition opens (key msg : list byte) (num : Z) (shown_key : string) : bool :=
  String.eqb shown_key (Py.hex key)
  && String.eqb (string_of_list_byte msg) (Py.str num).

Definition step (s : phase) (e : event) : option phase :=
  match s, e with
  | Idle, Hmac key msg => Some (Sealed key msg)
  | Idle, Input _ => Some Idle
  | Idle, Print (Selected _ _) => None
  | Idle, Print (MySelection _ _) => None
  | Idle, Print (MyNumber _ _) => None
  | Idle, Print _ => Some Idle
  | Sealed key msg, Print (Selected _ tag) =>
      if String.eqb tag (Py.hex (Sha3.hmac_sha3_256 key msg))
      then Some (Committed key msg) else None
  | Committed key msg, Input _ => Some (Contributed key msg)
  | Committed _ _, Print TryToGuess => Some s
  | Committed _ _, Print GuessMenu => Some s
  | Committed _ _, Print ChooseNumberToAdd => Some s
  | Committed _ _, Print (NumberOption _) => Some s
  | Committed _ _, Print (ExitOption _) => Some s
  | Committed _ _, Print (HelpOption _) => Some s
  | Contributed key msg, Print (MySelection num k) =>
      if opens key msg num k then Some (Revealed false) else None
  | Contributed key msg, Print (MyNumber num k) =>
      if opens key msg num k then Some (Revealed true) else None
  | Contributed _ _, Print InvalidInput => Some Idle
  | Contributed _ _, Print InvalidSelection => Some Idle
  | Revealed false, Print YouGoFirst => Some Idle
  | Revealed false, Print IGoFirst => Some Idle
  | Revealed true, Print (TheResult _ _ _ _) => Some Idle
  | _, _ => None
  end.

Fixpoint protocol (s : phase) (tr : list event) : option phase :=
  match tr with
  | [] => Some s
  | e :: rest =>
      match step s e with
      | Some s' => protocol s' rest
      | None => None
      end
  end.

(** A run may stop in any phase but the two that last for one event only. *)
Definition settled (s : phase) : bool :=
  match s with
  | Sealed _ _ | Revealed _ => false
  | _ => true
  end.

Definition follows_protocol (tr : list event) : bool :=
  match protocol Idle tr with
  | Some s => settled s
  | None => false
  end.

(** The lines of a menu, printed between the tag and the prompt. *)
Definition menu_print (e : event) : bool :=
  match e with
  | Print TryToGuess | Print GuessMenu | Print ChooseNumberToAdd
  | Print (NumberOption _) | Print (ExitOption _) | Print (HelpOption _) => true
  | _ => false
  end.

(** The number and key a message reveals. *)
Definition revealed (e : event) : option (Z * string) :=
  match e with
  | Print (MySelection num key) => Some (num, key)
  | Print (MyNumber num key) => Some (num, key)
  | _ => None
  end.

(** [e] recomputes the keyed digest of the revealed pair. *)
Definition recomputes (num : Z) (key : string) (e : event) : bool :=
  match e with
  | Hmac k m =>
      String.eqb (Py.hex k) key && String.eqb (string_of_list_byte m) (Py.str num)
  | _ => false
  end.

(** Every reveal is followed, later in the run, by a recomputation of the
    digest of what was revealed. *)
Fixpoint reveals_verified (tr : list event) : bool :=
  match tr with
  | [] => true
  | e :: rest =>
      match revealed e with
      | Some (num, key) => existsb (recomputes num key) rest
      | None => true
      end && reveals_verified rest
  end.

(** Every digest computed is the tag of the commitment published next. *)
Fixpoint digests_are_commitments (tr : list event) : bool :=
  match tr with
  | [] => true
  | Hmac k m :: rest =>
      match rest with
      | Print (Selected _ tag) :: _ =>
          String.eqb tag (Py.hex (Sha3.hmac_sha3_256 k m))
      | _ => false
      end && digests_are_commitments rest
  | _ :: rest => digests_are_commitments rest
  end.

Definition announcement (e : event) : bool :=
  match e with
  | Print YouGoFirst | Print IGoFirst | Print (TheResult _ _ _ _) => true
  | _ => false
  end.

(** Every reveal is followed at once by the announcement of the result. *)
Fixpoint reveals_are_announced (tr : list event) : bool :=
  match tr with
  | [] => true
  | e :: rest =>
      match revealed e, rest with
      | Some _, next :: _ => announcement next
      | Some _, [] => false
      | None, _ => true
      end && reveals_are_announced rest
  end.

(** What [determine_first_turn] prints for its result, lines 94 and 97. *)
Definition first_mover_message (first : who) : message :=
  match first with TheUser => YouGoFirst | TheComputer => IGoFirst end.

(** ** Lines a prompt rejects *)

(** The lines [determine_first_turn] answers with a new attempt, lines
    83-88. *)
Definition rejected_guess (line : string) : bool :=
  negb (String.eqb line "2")
  && (negb (Py.isdigit line)
      || match Py.int line with
         | Some v => negb ((v =? 0) || (v =? 1))
         | None => false
         end).

(** The lines [roll_dice] answers with a new attempt, lines 114-119. *)
Definition rejected_add (modulo : Z) (line : string) : bool :=
  negb (String.eqb line (Py.str modulo))
  && (negb (Py.isdigit line)
      || match Py.int line with
         | Some v => negb (Py.in_range v modulo)
         | None => false
         end).

(** [determine_first_turn] on [line]: the prompt, the line, the diagnostic,
    and the same step again on a fresh commitment. *)
Definition guess_is_retried (line : string) : Prop :=
  forall (rest : list string) (g : rng),
    match FairRandom.generate_secure_random 2 g with
    | (evs, (Ret (_, _, comp_hmac), g1)) =>
        DiceGame.determine_first_turn (line :: rest) g
        = say (Print DetermineFirst :: evs ++ DiceGame.guess_menu comp_hmac
               ++ [Input line; Print InvalidInput])
              (DiceGame.determine_first_turn rest g1)
    | (_, (Raise _, _)) => False
    end.

(** [roll_dice] on [line]: the prompt, the line, the diagnostic, and the
    same step again, for the same player of the same game, on a fresh
    commitment. *)
Definition add_is_retried (modulo : Z) (line : string) : Prop :=
  forall (self : DiceGame.t) (p : who) (rest : list string) (g : rng),
    match FairRandom.generate_secure_random modulo g with
    | (evs, (Ret (_, _, hmac_value), g1)) =>
        DiceGame.roll_dice self p modulo (line :: rest) g
        = say (Print (TimeForThrow (Player.name (DiceGame.player self p)))
               :: evs ++ DiceGame.roll_menu modulo hmac_value
               ++ [Input line; Print InvalidSelection])
              (DiceGame.roll_dice self p modulo rest g1)
    | (_, (Raise _, _)) => False
    end.

(** ** Configurations and worlds used below *)

Definition spec_die : Dice.t := {| Dice.values := [2; 2; 4; 4; 9; 9] |}.

(** The three dice of the specification's scenario. *)
Definition spec_config : list string :=
  ["2,2,4,4,9,9"; "1,1,6,6,8,8"; "3,3,5,5,7,7"].

(** The game [DiceGame.init] builds from [spec_config]. *)
Definition spec_game : DiceGame.t :=
  {| DiceGame.dice := [{| Dice.values := [2; 2; 4; 4; 9; 9] |};
                       {| Dice.values := [1; 1; 6; 6; 8; 8] |};
                       {| Dice.values := [3; 3; 5; 5; 7; 7] |}];
     DiceGame.user := Player.init "User";
     DiceGame.computer := Player.init "Computer" |}.

(** Three dice of three faces each. *)
Definition short_config : list string := ["1,2,3"; "4,5,6"; "7,8,9"].

(** Three dice of three, four and two faces. *)
Definition ragged_config : list string := ["1,2,3"; "4,5,6,7"; "8,9"].

(** The computer commits to 1, the user guesses 0, so the computer moves
    first and draws die 0; the user then selects entry 0 of the reduced pool
    and adds 0 to both rolls. *)
Definition computer_first : world :=
  {| gen := rng_of [7; 1; 0; 11; 0; 13; 0]%N;
     stdin := ["0"; "0"; "0"; "0"] |}.

(** The user guesses the committed 0 and moves first with die 1; the
    computer draws among the other two; the contributions are 3 and 5. *)
Definition user_first : world :=
  {| gen := rng_of [7; 0; 1; 11; 4; 13; 2]%N;
     stdin := ["0"; "1"; "3"; "5"] |}.

(** As [computer_first], but the computer's roll commits to face 5. *)
Definition high_face : world :=
  {| gen := rng_of [7; 1; 0; 11; 5; 13; 0]%N;
     stdin := ["0"; "0"; "0"; "0"] |}.

(** ** Auxiliary definitions of the proofs *)

(** Reading a decimal numeral digit by digit. *)
Fixpoint uint_value (acc : Z) (d : Decimal.uint) : Z :=
  match d with
  | Decimal.Nil => acc
  | Decimal.D0 l => uint_value (10 * acc + 0) l
  | Decimal.D1 l => uint_value (10 * acc + 1) l
  | Decimal.D2 l => uint_value (10 * acc + 2) l
  | Decimal.D3 l => uint_value (10 * acc + 3) l
  | Decimal.D4 l => uint_value (10 * acc + 4) l
  | Decimal.D5 l => uint_value (10 * acc + 5) l
  | Decimal.D6 l => uint_value (10 * acc + 6) l
  | Decimal.D7 l => uint_value (10 * acc + 7) l
  | Decimal.D8 l => uint_value (10 * acc + 8) l
  | Decimal.D9 l => uint_value (10 * acc + 9) l
  end.

(** A run that starts in phase [s] follows the protocol, stops in a settled
    phase, and is back in [Idle] if it returns. *)
Definition proper_from {A} (s : phase) (r : run A) : Prop :=
  exists s',
    protocol s (trace r) = Some s'
    /\ settled s' = true
    /\ (returned (outcome r) = true -> s' = Idle).

(** ** Further notions used by the properties of the whole round *)

(** The integer a well-formed face stands for. *)
Definition face_value (x : string) : Z :=
  match Py.int x with
  | Some v => v
  | None => 0
  end.

(** The dice a configuration spells out, in its order. *)
Definition written_dice (dice_sets : list string) : list Dice.t :=
  map (fun d => {| Dice.values := map face_value (Py.split "," d) |}) dice_sets.

Definition nonnegative (vs : list Z) : bool := forallb (fun v => 0 <=? v) vs.

Definition is_reveal (e : event) : bool :=
  match revealed e with
  | Some _ => true
  | None => false
  end.

Definition is_digest (e : event) : bool :=
  match e with
  | Hmac _ _ => true
  | _ => false
  end.

(** How many commitments a run opened, and how many it created. *)
Definition reveals (tr : list event) : nat := List.length (filter is_reveal tr).

Definition commitments (tr : list event) : nat := List.length (filter is_digest tr).

(** The exceptions that come from the program's own indices and arithmetic,
    not from the user or the end of the input. *)
Definition fault (e : exn) : bool :=
  match e with
  | IndexError | TypeError | ZeroDivisionError => true
  | ValueError UpperBoundNotPositive => true
  | ValueError (InvalidFaceValue _) => true
  | _ => false
  end.

Definition faulty {A} (r : result A) : bool :=
  match r with
  | Ret _ => false
  | Raise e => fault e
  end.

(** The call ended in the lookup of line 126: no die at [dice_choice], or no
    face at the resolved index. *)
Definition lookup_failed {A} (r : result A) : bool :=
  match r with
  | Raise IndexError | Raise TypeError => true
  | _ => false
  end.

(** What [play_round] prints for its verdict, lines 151, 153 and 155. *)
Definition verdict_message (v : verdict) : message :=
  match v with
  | UserWins => YouWin
  | ComputerWins => IWin
  | Draw => Tie
  end.

(** The die at a player's [dice_choice], as line 126 looks it up. *)
Definition assigned_die (self : DiceGame.t) (p : who) : option Dice.t :=
  match Player.dice_choice (DiceGame.player self p) with
  | Some c => Py.getitem (DiceGame.dice self) c
  | None => None
  end.

(** The entry of the pool shown to the user at position [j] once die [c] is
    taken out, line 137. *)
Definition offered_index (c j : Z) : Z := if j <? c then j else j + 1.

(** A line of one superscript two: [isdigit] accepts it, [int] does not. *)
Definition superscript_two : string := String (ascii_of_nat 178) EmptyString.

(** An exit, if any, has status 0. *)
Definition exits_with_zero {A} (r : result A) : bool :=
  match r with
  | Raise (SystemExit code) => code =? 0
  | _ => true
  end.

(** Every die has at least as many faces as the modulus of a roll. *)
Definition long_enough (ds : list Dice.t) : bool :=
  forallb (fun d => DiceGame.default_modulo <=? Z.of_nat (List.length (Dice.values d))) ds.

(** The same, read off the configuration. *)
Definition long_enough_config (dice_sets : list string) : bool :=
  forallb (fun d => DiceGame.default_modulo <=? Z.of_nat (List.length (Py.split "," d)))
    dice_sets.

(** The two properties of an ending, as properties of results of any type. *)
Definition sound (A : Type) (r : result A) : bool := negb (faulty r).


(** * Properties *)

(** ** Facts about the primitives *)

Lemma hex_value_digit (n : N) :
  (n < 16)%N -> Py.hex_value (Py.hex_digit n) = Some n.
Proof.
  intros H.
  assert (C : In n (map N.of_nat (seq 0 16))).
  { apply in_map_iff. exists (N.to_nat n). split; [lia |].
    apply in_seq. lia. }
  simpl in C.
  repeat (destruct C as [<- | C]; [reflexivity |]).
  destruct C.
Qed.

Lemma fromhex_hex (b : list byte) : Py.fromhex (Py.hex b) = Some b.
Proof.
  induction b as [| x rest IH]; [reflexivity |].
  cbn [Py.hex Py.fromhex]. rewrite IH.
  pose proof (Byte.to_N_bounded x) as B.
  rewrite !hex_value_digit.
  - replace (16 * (Byte.to_N x / 16) + Byte.to_N x mod 16)%N with (Byte.to_N x).
    + rewrite Byte.of_to_N. reflexivity.
    + rewrite (N.div_mod' (Byte.to_N x) 16) at 1. reflexivity.
  - apply N.mod_lt. discriminate.
  - apply N.Div0.div_lt_upper_bound. lia.
Qed.

(** The model of the digest against the library's answers. *)
Example sha3_256_empty :
  Py.hex (Sha3.sha3_256 [])
  = "a7ffc6f8bf1ed76651c14756a061d662f580ff4de43b49fa82d80a4b80f8434a".
Proof. vm_compute. reflexivity. Qed.

Example sha3_256_abc :
  Py.hex (Sha3.sha3_256 (Py.encode "abc"))
  = "3a985da74fe225b2045c172d6bd390bd855f086e3e9d525b46bfe24511431532".
Proof. vm_compute. reflexivity. Qed.

Example hmac_sha3_256_long_key :
  Py.hex (Sha3.hmac_sha3_256 (repeat Byte.x6b 200) (Py.encode "hello"))
  = "d8bb4a12ed59dec12bd8eeec45f195806679482a98271ddf0c815c580efcfe9f".
Proof. vm_compute. reflexivity. Qed.

Example int_accepts :
  Py.int " -0_7 " = Some (-7) /\ Py.int "1__0" = None /\ Py.int "+ 5" = None
  /\ Py.int "" = None /\ Py.isdigit "06" = true /\ Py.isdigit "-1" = false
  /\ Py.split "," "2,2,,4" = ["2"; "2"; ""; "4"].
Proof. repeat split; reflexivity. Qed.

Lemma bytes_of_lane_length (n : nat) (l : N) :
  List.length (Sha3.bytes_of_lane n l) = n.
Proof.
  revert l. induction n as [| n IH]; intros l; simpl; [| rewrite IH]; reflexivity.
Qed.

Ltac eval_digit :=
  match goal with
  | |- context [Py.digit_value ?c] =>
      let v := eval vm_compute in (Py.digit_value c) in
      change (Py.digit_value c) with v
  end.

Lemma int_tail_uint (d : Decimal.uint) (acc : Z) :
  Py.int_tail acc (NilEmpty.string_of_uint d) = Some (uint_value acc d).
Proof.
  revert acc.
  induction d; intros acc; cbn [NilEmpty.string_of_uint uint_value Py.int_tail];
    try reflexivity; eval_digit; cbv iota; apply IHd.
Qed.

Lemma uint_value_pos (d : Decimal.uint) (acc : positive) :
  uint_value (Z.pos acc) d = Z.pos (Pos.of_uint_acc d acc).
Proof.
  revert acc.
  induction d; intros acc; cbn [uint_value Pos.of_uint_acc]; try reflexivity;
    match goal with
    | |- uint_value ?a _ = Z.pos (Pos.of_uint_acc _ ?b) =>
        replace a with (Z.pos b) by lia
    end; apply IHd.
Qed.

Lemma uint_value_zero (d : Decimal.uint) :
  uint_value 0 d = Z.of_N (Pos.of_uint d).
Proof.
  induction d; cbn [uint_value Pos.of_uint]; try reflexivity;
    [exact IHd | ..]; cbn [Z.mul Z.add Z.of_N]; apply uint_value_pos.
Qed.

Lemma all_digits_uint (d : Decimal.uint) :
  Py.all_chars Py.isdigit_char (NilEmpty.string_of_uint d) = true.
Proof. induction d; cbn [NilEmpty.string_of_uint Py.all_chars]; auto. Qed.

Lemma digit_not_space (c : ascii) :
  Py.isdigit_char c = true -> Py.isspace_char c = false.
Proof.
  unfold Py.isdigit_char, Py.isspace_char. generalize (Py.code c). intros n H.
  repeat match goal with
         | |- context [(?a <=? ?b)%N] => destruct (N.leb_spec a b)
         | |- context [(?a =? ?b)%N] => destruct (N.eqb_spec a b)
         | H : context [(?a <=? ?b)%N] |- _ => destruct (N.leb_spec a b)
         | H : context [(?a =? ?b)%N] |- _ => destruct (N.eqb_spec a b)
         end; simpl in *; try reflexivity; try discriminate; lia.
Qed.

Lemma rstrip_digits (s : string) :
  Py.all_chars Py.isdigit_char s = true -> Py.rstrip s = s.
Proof.
  induction s as [| c rest IH]; [reflexivity |].
  cbn [Py.all_chars Py.rstrip]. intros H.
  apply andb_true_iff in H. destruct H as [Hc Hr].
  rewrite (IH Hr). destruct rest; [| reflexivity].
  rewrite (digit_not_space c Hc). reflexivity.
Qed.

Lemma strip_digits (s : string) :
  Py.all_chars Py.isdigit_char s = true -> Py.strip s = s.
Proof.
  intros H. unfold Py.strip.
  destruct s as [| c rest]; [reflexivity |].
  cbn [Py.lstrip]. cbn [Py.all_chars] in H.
  pose proof H as H'. apply andb_true_iff in H'. destruct H' as [Hc _].
  rewrite (digit_not_space c Hc). apply rstrip_digits. exact H.
Qed.

(** [str] of a natural number is a numeral; [int] and [isdigit] accept it. *)
Lemma str_nonneg (n : Z) :
  0 <= n ->
  exists d, d <> Decimal.Nil /\ Py.str n = NilEmpty.string_of_uint d
            /\ Z.of_N (Pos.of_uint d) = n.
Proof.
  intros H. destruct n as [| p | p]; [| | lia].
  - exists (Decimal.D0 Decimal.Nil). repeat split. discriminate.
  - exists (Pos.to_uint p). split; [| split].
    + intros E. pose proof (DecimalPos.Unsigned.of_to p) as R.
      rewrite E in R. discriminate.
    + unfold Py.str. cbn [Z.to_int NilZero.string_of_int].
      unfold NilZero.string_of_uint.
      destruct (Pos.to_uint p) eqn:E; try reflexivity.
      pose proof (DecimalPos.Unsigned.of_to p) as R.
      rewrite E in R. discriminate.
    + rewrite DecimalPos.Unsigned.of_to. reflexivity.
Qed.

Lemma isdigit_str (n : Z) : 0 <= n -> Py.isdigit (Py.str n) = true.
Proof.
  intros H. destruct (str_nonneg n H) as (d & Hd & -> & _).
  unfold Py.isdigit.
  destruct (NilEmpty.string_of_uint d) eqn:E.
  - destruct d; try discriminate. congruence.
  - rewrite <- E. apply all_digits_uint.
Qed.

Lemma int_str (n : Z) : 0 <= n -> Py.int (Py.str n) = Some n.
Proof.
  intros H. destruct (str_nonneg n H) as (d & Hd & -> & <-).
  unfold Py.int. rewrite (strip_digits _ (all_digits_uint d)).
  rewrite <- uint_value_zero.
  destruct d; try congruence; cbn [NilEmpty.string_of_uint uint_value];
    cbv beta iota; unfold Py.int_magnitude; eval_digit; cbv iota;
    apply int_tail_uint.
Qed.

Lemma str_inj (n m : Z) : 0 <= n -> 0 <= m -> Py.str n = Py.str m -> n = m.
Proof.
  intros Hn Hm E. pose proof (int_str n Hn) as A. rewrite E, (int_str m Hm) in A.
  congruence.
Qed.

(** ** Facts about runs *)

Lemma say_say {A} (a b : list event) (r : run A) :
  say a (say b r) = say (a ++ b) r.
Proof. unfold say. cbn [fst snd]. rewrite app_assoc. reflexivity. Qed.

Lemma trace_say {A} (a : list event) (r : run A) :
  trace (say a r) = a ++ trace r.
Proof. reflexivity. Qed.

Lemma outcome_say {A} (a : list event) (r : run A) :
  outcome (say a r) = outcome r.
Proof. reflexivity. Qed.

(** What a commitment is made of: one draw for the key, one for the number,
    one digest. *)
Lemma generate_secure_random_shape (limit : Z) (g : rng) :
  0 < limit ->
  exists secret number g',
    FairRandom.generate_secure_random limit g
    = ([Hmac secret (Py.encode (Py.str number))],
       (Ret (number, Py.hex secret,
             Py.hex (Sha3.hmac_sha3_256 secret (Py.encode (Py.str number)))), g'))
    /\ List.length secret = 32%nat
    /\ 0 <= number < limit.
Proof.
  intros H. unfold FairRandom.generate_secure_random, secrets.token_bytes.
  destruct (draw g) as [r1 g1]. unfold secrets.randbelow.
  destruct (Z.leb_spec limit 0) as [C | _]; [lia |].
  destruct (draw g1) as [r2 g2].
  eexists _, _, _. split; [reflexivity |]. split.
  - rewrite length_map. apply bytes_of_lane_length.
  - apply Z.mod_pos_bound. exact H.
Qed.

(** A limit that is not positive yields no commitment and no event. *)
Lemma generate_secure_random_refuses (limit : Z) (g : rng) :
  limit <= 0 ->
  exists g',
    FairRandom.generate_secure_random limit g
    = ([], (Raise (ValueError UpperBoundNotPositive), g')).
Proof.
  intros H. unfold FairRandom.generate_secure_random, secrets.token_bytes.
  destruct (draw g) as [r1 g1]. unfold secrets.randbelow.
  destruct (Z.leb_spec limit 0) as [_ | C]; [| lia]. eauto.
Qed.
(** ** The combiner *)

(** C8. For every modulus > 0 and all a, b in [0, modulus),
    compute_modular_result(a, b, modulus) returns exactly (a + b) mod modulus,
    and that result lies in [0, modulus). *)
Theorem compute_modular_result_in_range (a b modulus : Z) :
  0 < modulus -> 0 <= a < modulus -> 0 <= b < modulus ->
  FairRandom.compute_modular_result a b modulus = Ret ((a + b) mod modulus)
  /\ 0 <= (a + b) mod modulus < modulus.
Proof.
  intros Hm _ _. unfold FairRandom.compute_modular_result.
  destruct (Z.eqb_spec modulus 0) as [E | _]; [lia |].
  split; [reflexivity | apply Z.mod_pos_bound; exact Hm].
Qed.

Lemma compute_modular_result_in_range_witness :
  FairRandom.compute_modular_result 4 5 6 = Ret ((4 + 5) mod 6)
  /\ 0 <= (4 + 5) mod 6 < 6.
Proof. apply (compute_modular_result_in_range 4 5 6); lia. Defined.

(** ** Dice *)

Lemma getitem_inside {A} (l : list A) (i : Z) (d : A) :
  0 <= i < Z.of_nat (List.length l) ->
  Py.getitem l i = Some (nth (Z.to_nat i) l d).
Proof.
  intros H. unfold Py.getitem.
  destruct (Z.leb_spec 0 i) as [_ | C]; [| lia].
  apply nth_error_nth'. lia.
Qed.

Lemma getitem_negative {A} (l : list A) (i : Z) (d : A) :
  - Z.of_nat (List.length l) <= i < 0 ->
  Py.getitem l i = Some (nth (Z.to_nat (Z.of_nat (List.length l) + i)) l d).
Proof.
  intros H. unfold Py.getitem.
  destruct (Z.leb_spec 0 i) as [C | _]; [lia |].
  destruct (Z.leb_spec (- Z.of_nat (List.length l)) i) as [_ | C]; [| lia].
  apply nth_error_nth'. lia.
Qed.

Lemma getitem_outside {A} (l : list A) (i : Z) :
  i < - Z.of_nat (List.length l) \/ Z.of_nat (List.length l) <= i ->
  Py.getitem l i = None.
Proof.
  intros H. unfold Py.getitem.
  destruct (Z.leb_spec 0 i) as [P | P].
  - apply nth_error_None. lia.
  - destruct (Z.leb_spec (- Z.of_nat (List.length l)) i) as [C | _]; [lia |].
    reflexivity.
Qed.

(** C6, as the code has it. roll(face_index) returns values[face_index]
    when 0 <= face_index < length; when -length <= face_index < 0 it returns
    values[length + face_index], counting from the end; it fails with
    IndexError exactly when face_index >= length or face_index < -length. *)
Theorem roll_by_index (d : Dice.t) (face_index : Z) :
  let n := Z.of_nat (List.length (Dice.values d)) in
  (0 <= face_index < n ->
   Dice.roll d face_index = Ret (nth (Z.to_nat face_index) (Dice.values d) 0))
  /\ (- n <= face_index < 0 ->
      Dice.roll d face_index = Ret (nth (Z.to_nat (n + face_index)) (Dice.values d) 0))
  /\ (face_index < - n \/ n <= face_index ->
      Dice.roll d face_index = Raise IndexError).
Proof.
  intros n. unfold Dice.roll. repeat split; intros H.
  - rewrite (getitem_inside _ _ 0 H). reflexivity.
  - rewrite (getitem_negative _ _ 0 H). reflexivity.
  - rewrite (getitem_outside _ _ H). reflexivity.
Qed.

Lemma roll_by_index_witness :
  Dice.roll spec_die 2 = Ret 4
  /\ Dice.roll spec_die (-6) = Ret 2
  /\ Dice.roll spec_die 6 = Raise IndexError
  /\ Dice.roll spec_die (-7) = Raise IndexError.
Proof.
  split; [apply (roll_by_index spec_die 2); simpl; lia |].
  split; [apply (roll_by_index spec_die (-6)); simpl; lia |].
  split; [apply (roll_by_index spec_die 6); simpl; lia |].
  apply (roll_by_index spec_die (-7)); simpl; lia.
Defined.

(** C6, as the specification states it, fails: a negative index inside
    [-length, 0) is answered with a face, not with an error. *)
Lemma roll_negative_index_returns :
  Dice.roll spec_die (-1) = Ret 9
  /\ Dice.roll spec_die (-1) <> Raise IndexError.
Proof. split; [reflexivity | discriminate]. Qed.


(** ** The commitment engine *)

(** C9. For every (number, key, tag) produced by generate_secure_random,
    the key printed in hexadecimal decodes to the 32-byte secret, and
    HMAC-SHA3-256 of str(number) under that secret is exactly the tag; the
    number lies in [0, limit). *)
Theorem commitment_round_trip
  (limit : Z) (g g' : rng) (evs : list event) (number : Z) (key tag : string) :
  FairRandom.generate_secure_random limit g = (evs, (Ret (number, key, tag), g')) ->
  exists secret,
    Py.fromhex key = Some secret
    /\ List.length secret = 32%nat
    /\ Py.hex (Sha3.hmac_sha3_256 secret (Py.encode (Py.str number))) = tag
    /\ evs = [Hmac secret (Py.encode (Py.str number))]
    /\ 0 <= number < limit.
Proof.
  intros E.
  destruct (Z.leb_spec limit 0) as [C | C].
  - destruct (generate_secure_random_refuses limit g C) as [g1 R].
    rewrite R in E. discriminate.
  - destruct (generate_secure_random_shape limit g C) as (secret & n & g1 & R & L & B).
    rewrite R in E. injection E as <- <- <- <- <-.
    exists secret. rewrite fromhex_hex. repeat split; try assumption; apply B.
Qed.

Lemma commitment_round_trip_witness :
  exists secret,
    Py.fromhex "0700000000000000000000000000000000000000000000000000000000000000"
    = Some secret
    /\ List.length secret = 32%nat
    /\ Py.hex (Sha3.hmac_sha3_256 secret (Py.encode (Py.str 1)))
       = "e4b766fdf43796df50fbaf8881e1a16368caffb0678b8fc1c5781f71891be56e"
    /\ fst (FairRandom.generate_secure_random 2 (rng_of [7; 1]%N))
       = [Hmac secret (Py.encode (Py.str 1))]
    /\ 0 <= 1 < 2.
Proof.
  apply (commitment_round_trip 2 (rng_of [7; 1]%N)
           {| draws := draws (rng_of [7; 1]%N); cursor := 2 |}).
  vm_compute. reflexivity.
Defined.

(** ** Configuration *)

Lemma parse_faces_ok (xs : list string) :
  forallb face_ok xs = true ->
  exists vs, DiceGame.parse_faces xs = Ret vs
             /\ List.length vs = List.length xs
             /\ Dice.check_faces vs = Ret tt.
Proof.
  induction xs as [| x rest IH]; cbn [forallb DiceGame.parse_faces].
  - intros _. exists []. repeat split.
  - intros H. apply andb_true_iff in H. destruct H as [Hx Hr].
    destruct (IH Hr) as (vs & -> & L & C).
    unfold face_ok in Hx. destruct (Py.int x) as [v |]; [| discriminate].
    exists (v :: vs). cbn [List.length Dice.check_faces]. rewrite L.
    destruct (Z.ltb_spec v 0) as [N | _]; [apply Z.leb_le in Hx; lia |].
    repeat split. exact C.
Qed.

Lemma parse_faces_raises (xs : list string) (e : exn) :
  DiceGame.parse_faces xs = Raise e -> exists why, e = ValueError why.
Proof.
  induction xs as [| x rest IH]; cbn [DiceGame.parse_faces]; [discriminate |].
  destruct (Py.int x) as [v |].
  - destruct (DiceGame.parse_faces rest) as [vs | e']; [discriminate |].
    intros E. injection E as <-. apply IH. reflexivity.
  - intros E. injection E as <-. eauto.
Qed.

Lemma parse_faces_bad (xs : list string) (vs : list Z) :
  forallb face_ok xs = false ->
  DiceGame.parse_faces xs = Ret vs ->
  exists why, Dice.check_faces vs = Raise (ValueError why).
Proof.
  revert vs.
  induction xs as [| x rest IH]; intros vs; cbn [forallb DiceGame.parse_faces];
    [discriminate |].
  intros H. unfold face_ok in H at 1.
  destruct (Py.int x) as [v |]; [| discriminate].
  destruct (DiceGame.parse_faces rest) as [vs' | e]; [| discriminate].
  intros E. injection E as <-.
  cbn [Dice.check_faces]. destruct (Z.ltb_spec v 0) as [N | P]; [eauto |].
  apply IH; [| reflexivity]. destruct (Z.leb_spec 0 v); [exact H | lia].
Qed.

Lemma build_dice_ok (dice_sets : list string) :
  forallb die_ok dice_sets = true ->
  exists ds, DiceGame.build_dice dice_sets = Ret ds
             /\ map (fun d => List.length (Dice.values d)) ds
                = map (fun d => List.length (Py.split "," d)) dice_sets.
Proof.
  induction dice_sets as [| d rest IH]; cbn [forallb DiceGame.build_dice].
  - intros _. exists []. split; reflexivity.
  - intros H. apply andb_true_iff in H. destruct H as [Hd Hr].
    destruct (parse_faces_ok _ Hd) as (vs & -> & L & C).
    destruct (IH Hr) as (ds & -> & M).
    unfold Dice.init. rewrite C.
    eexists. split; [reflexivity |]. cbn [map Dice.values]. rewrite L, M.
    reflexivity.
Qed.

Lemma build_dice_bad (dice_sets : list string) :
  forallb die_ok dice_sets = false ->
  exists why, DiceGame.build_dice dice_sets = Raise (ValueError why).
Proof.
  induction dice_sets as [| d rest IH]; cbn [forallb DiceGame.build_dice];
    [discriminate |].
  intros H. destruct (die_ok d) eqn:Hd.
  - destruct (parse_faces_ok _ Hd) as (vs & -> & _ & C).
    unfold Dice.init. rewrite C. destruct (IH H) as [why ->]. eauto.
  - destruct (DiceGame.parse_faces (Py.split "," d)) as [vs | e] eqn:P.
    + destruct (parse_faces_bad _ _ Hd P) as [why B].
      unfold Dice.init. rewrite B. eauto.
    + destruct (parse_faces_raises _ _ P) as [why ->]. eauto.
Qed.

(** C5, as the code has it. Construction fails fast, with a message and exit
    status 1 and before any round begins, exactly when fewer than three dice
    are given or some face is not a non-negative integer literal.  Face
    counts are not compared: every other configuration is accepted with the
    face counts it was written with. *)
Theorem init_checks_faces_only (dice_sets : list string) :
  (config_ok dice_sets = true ->
   exists game,
     DiceGame.init dice_sets = ([], Ret game)
     /\ face_counts game = map (fun d => List.length (Py.split "," d)) dice_sets)
  /\ (config_ok dice_sets = false ->
      exists evs,
        DiceGame.init dice_sets = (evs, Raise (SystemExit 1))
        /\ evs <> []
        /\ forall w, main dice_sets w = (evs, (Raise (SystemExit 1), w))).
Proof.
  unfold config_ok, DiceGame.init, main.
  rewrite (Nat.leb_antisym (List.length dice_sets) 3).
  destruct (List.length dice_sets <? 3)%nat eqn:L; cbn [negb andb]; split;
    try discriminate.
  - intros _. eexists. repeat split. discriminate.
  - intros H. destruct (build_dice_ok _ H) as (ds & -> & M).
    eexists. split; [reflexivity |]. exact M.
  - intros H. destruct (build_dice_bad _ H) as [why E].
    unfold DiceGame.init. rewrite E, L.
    eexists. repeat split. discriminate.
Qed.

Lemma init_checks_faces_only_witness :
  (exists game,
     DiceGame.init spec_config = ([], Ret game)
     /\ face_counts game = map (fun d => List.length (Py.split "," d)) spec_config)
  /\ (exists evs,
        DiceGame.init ["1,2,3"; "4,-5,6"; "7,8,9"] = (evs, Raise (SystemExit 1))
        /\ evs <> []
        /\ forall w, main ["1,2,3"; "4,-5,6"; "7,8,9"] w
                     = (evs, (Raise (SystemExit 1), w))).
Proof.
  split.
  - apply (init_checks_faces_only spec_config). reflexivity.
  - apply (init_checks_faces_only ["1,2,3"; "4,-5,6"; "7,8,9"]). reflexivity.
Defined.

(** C5, as the specification states it, fails: dice of three, four and two
    faces are accepted and the game is built. *)
Lemma ragged_config_is_accepted :
  exists game,
    DiceGame.init ragged_config = ([], Ret game)
    /\ face_counts game = [3; 4; 2]%nat.
Proof. eexists. split; reflexivity. Qed.

(** ** Rejected lines *)

Ltac say_norm :=
  unfold print; rewrite ?say_say; unfold DiceGame.guess_menu, DiceGame.roll_menu;
  rewrite <- ?app_assoc; cbn [app].

Lemma rejected_guess_is_retried (line : string) :
  rejected_guess line = true -> guess_is_retried line.
Proof.
  intros H rest g.
  destruct (generate_secure_random_shape 2 g) as (secret & n & g1 & R & _ & _);
    [lia |].
  cbn [DiceGame.determine_first_turn]. rewrite R.
  unfold rejected_guess in H. apply andb_true_iff in H. destruct H as [H2 H].
  apply negb_true_iff in H2. rewrite H2.
  destruct (Py.isdigit line); cbn [negb orb] in *.
  - destruct (Py.int line) as [v |]; [| discriminate].
    rewrite H. say_norm. reflexivity.
  - say_norm. reflexivity.
Qed.

Lemma rejected_add_is_retried (modulo : Z) (line : string) :
  0 < modulo -> rejected_add modulo line = true -> add_is_retried modulo line.
Proof.
  intros M H self p rest g.
  destruct (generate_secure_random_shape modulo g M) as (secret & n & g1 & R & _ & _).
  cbn [DiceGame.roll_dice]. rewrite R.
  unfold rejected_add in H. apply andb_true_iff in H. destruct H as [H2 H].
  apply negb_true_iff in H2. rewrite H2.
  destruct (Py.isdigit line); cbn [negb orb] in *.
  - destruct (Py.int line) as [v |]; [| discriminate].
    rewrite H. say_norm. reflexivity.
  - say_norm. reflexivity.
Qed.

Lemma help_is_rejected_add (modulo : Z) :
  0 < modulo -> rejected_add modulo (Py.str (modulo + 1)) = true.
Proof.
  intros M. unfold rejected_add.
  rewrite isdigit_str, int_str by lia. cbn [negb orb].
  apply andb_true_iff. split.
  - apply negb_true_iff, String.eqb_neq. intros E.
    apply str_inj in E; lia.
  - unfold Py.in_range. apply negb_true_iff, andb_false_iff. right.
    apply Z.ltb_ge. lia.
Qed.

(** C10. The Help entry of a menu (3 at the turn-order prompt, modulus + 1 at
    a roll prompt) is one of the lines the prompt rejects, and every rejected
    line is handled alike: the diagnostic is printed and the same step runs
    again, for the same game and player, on the lines that follow.  Nothing
    else reaches the console. *)
Theorem help_is_an_invalid_selection (modulo : Z) :
  0 < modulo ->
  (rejected_guess "3" = true /\ guess_is_retried "3")
  /\ (rejected_add modulo (Py.str (modulo + 1)) = true
      /\ add_is_retried modulo (Py.str (modulo + 1)))
  /\ (forall line, rejected_guess line = true -> guess_is_retried line)
  /\ (forall line, rejected_add modulo line = true -> add_is_retried modulo line).
Proof.
  intros M. pose proof (help_is_rejected_add modulo M) as H.
  split; [| split; [| split]].
  - split; [reflexivity | apply rejected_guess_is_retried; reflexivity].
  - split; [exact H | apply rejected_add_is_retried; assumption].
  - apply rejected_guess_is_retried.
  - intros line. apply rejected_add_is_retried. exact M.
Qed.

Lemma help_is_an_invalid_selection_witness :
  (rejected_guess "3" = true /\ guess_is_retried "3")
  /\ (rejected_add 6 "7" = true /\ add_is_retried 6 "7")
  /\ (forall line, rejected_guess line = true -> guess_is_retried line)
  /\ (forall line, rejected_add 6 line = true -> add_is_retried 6 line).
Proof. apply (help_is_an_invalid_selection 6). lia. Defined.

(** ** Who moves first *)

(** C7. Whenever determine_first_turn returns, its last attempt committed to
    a number in [0, 2), read a guess of 0 or 1, revealed the committed number
    and named the user as first mover exactly when the guess equals that
    number, the computer otherwise; the number is used as drawn. *)
Theorem first_mover_by_guess (lines : list string) :
  forall (g : rng) (evs : list event) (first : who) (w : world),
    DiceGame.determine_first_turn lines g = (evs, (Ret first, w)) ->
    exists before secret comp_num line guess,
      evs = before
            ++ [Hmac secret (Py.encode (Py.str comp_num));
                Print (Selected 1 (Py.hex (Sha3.hmac_sha3_256 secret
                                             (Py.encode (Py.str comp_num)))));
                Print TryToGuess; Print GuessMenu; Input line;
                Print (MySelection comp_num (Py.hex secret));
                Print (first_mover_message first)]
      /\ 0 <= comp_num < 2
      /\ Py.int line = Some guess
      /\ (guess = 0 \/ guess = 1)
      /\ (first = TheUser <-> guess = comp_num).
Proof.
  induction lines as [| line rest IH]; intros g evs first w;
    destruct (generate_secure_random_shape 2 g) as (secret & n & g1 & R & _ & B);
    try lia; cbn [DiceGame.determine_first_turn]; rewrite R.
  - discriminate.
  - destruct (String.eqb line "2"); [discriminate |].
    destruct (Py.isdigit line); cbn [negb].
    + destruct (Py.int line) as [guess |] eqn:P; [| discriminate].
      destruct ((guess =? 0) || (guess =? 1)) eqn:V; cbn [negb].
      * destruct (Z.eqb_spec guess n) as [E | E]; say_norm; intros Q;
          injection Q as <- <- <-;
          exists [Print DetermineFirst], secret, n, line, guess;
          (split; [reflexivity |]); (split; [exact B |]);
          (split; [exact P |]);
          (split; [apply orb_true_iff in V; destruct V as [V | V];
                   apply Z.eqb_eq in V; auto |]);
          split; intros; congruence.
      * destruct (DiceGame.determine_first_turn rest g1) as [evs' [r' w']] eqn:D.
        say_norm. unfold say. cbn [fst snd]. intros Q. injection Q as <- -> ->.
        destruct (IH _ _ _ _ D) as (before & s' & n' & l' & g' & -> & rest_facts).
        eexists (_ :: _ :: _ :: _ :: _ :: _ :: _ :: before), s', n', l', g'.
        split; [reflexivity | exact rest_facts].
    + destruct (DiceGame.determine_first_turn rest g1) as [evs' [r' w']] eqn:D.
      say_norm. unfold say. cbn [fst snd]. intros Q. injection Q as <- -> ->.
      destruct (IH _ _ _ _ D) as (before & s' & n' & l' & g' & -> & rest_facts).
      eexists (_ :: _ :: _ :: _ :: _ :: _ :: _ :: before), s', n', l', g'.
      split; [reflexivity | exact rest_facts].
Qed.

Lemma first_mover_by_guess_witness :
  exists before secret comp_num line guess,
    trace (DiceGame.determine_first_turn ["3"; "1"] (rng_of [7; 0; 9; 1]%N))
    = before
      ++ [Hmac secret (Py.encode (Py.str comp_num));
          Print (Selected 1 (Py.hex (Sha3.hmac_sha3_256 secret
                                       (Py.encode (Py.str comp_num)))));
          Print TryToGuess; Print GuessMenu; Input line;
          Print (MySelection comp_num (Py.hex secret));
          Print (first_mover_message TheUser)]
    /\ 0 <= comp_num < 2
    /\ Py.int line = Some guess
    /\ (guess = 0 \/ guess = 1)
    /\ (TheUser = TheUser <-> guess = comp_num).
Proof.
  apply (first_mover_by_guess ["3"; "1"] (rng_of [7; 0; 9; 1]%N) _ TheUser
           {| gen := {| draws := draws (rng_of [7; 0; 9; 1]%N); cursor := 4 |};
              stdin := [] |}).
  vm_compute. reflexivity.
Defined.

(** ** The protocol of the exchanges *)

Lemma protocol_app (s : phase) (a b : list event) :
  protocol s (a ++ b)
  = match protocol s a with
    | Some s' => protocol s' b
    | None => None
    end.
Proof.
  revert s. induction a as [| e a IH]; intros s; cbn [app protocol];
    [reflexivity |].
  destruct (step s e); [apply IH | reflexivity].
Qed.

Section Proper.

Context {A : Type}.

Lemma proper_ret (a : A) (w : world) : proper_from Idle (ret a w).
Proof. exists Idle. repeat split. Qed.

Lemma proper_raise (s : phase) (e : exn) (w : world) :
  settled s = true -> proper_from s (@raise A e w).
Proof. intros H. exists s. repeat split; [exact H | discriminate]. Qed.

Lemma proper_say (s s1 : phase) (evs : list event) (r : run A) :
  protocol s evs = Some s1 -> proper_from s1 r -> proper_from s (say evs r).
Proof.
  intros P (s' & Q & S & I). exists s'.
  rewrite trace_say, protocol_app, P, outcome_say. auto.
Qed.

Lemma proper_bind {B} (s : phase) (r : run B) (k : B -> world -> run A) :
  proper_from s r -> (forall b w, proper_from Idle (k b w)) ->
  proper_from s (bind r k).
Proof.
  intros (s' & Q & S & I) K. destruct r as [evs [[b | e] w]].
  - cbn [bind]. apply (proper_say s Idle); [| apply K].
    rewrite <- (I eq_refl). exact Q.
  - exists s'. auto.
Qed.

Lemma proper_follows (r : run A) :
  proper_from Idle r -> follows_protocol (trace r) = true.
Proof.
  intros (s & P & S & _). unfold follows_protocol. rewrite P. exact S.
Qed.

End Proper.

Lemma protocol_dice_options (l : list (Z * Dice.t)) :
  protocol Idle (map (fun '(idx, d) => Print (DiceOption idx (Dice.values d))) l)
  = Some Idle.
Proof. induction l as [| [idx d] l IH]; [reflexivity | exact IH]. Qed.

Lemma protocol_number_options (key msg : list byte) (l : list Z) :
  protocol (Committed key msg) (map (fun i => Print (NumberOption i)) l)
  = Some (Committed key msg).
Proof. induction l as [| i l IH]; [reflexivity | exact IH]. Qed.

Lemma opens_committed (secret : list byte) (n : Z) :
  opens secret (Py.encode (Py.str n)) n (Py.hex secret) = true.
Proof.
  unfold opens, Py.encode.
  rewrite string_of_list_byte_of_string, !String.eqb_refl. reflexivity.
Qed.

Ltac run_protocol :=
  repeat (progress (cbn [protocol step app];
                    rewrite ?String.eqb_refl, ?opens_committed));
  try reflexivity.

Lemma proper_choose_dice (self : Player.t) (available_dice : list Dice.t)
  (lines : list string) (g : rng) :
  proper_from Idle (Player.choose_dice self available_dice lines g).
Proof.
  induction lines as [| choice rest IH]; cbn [Player.choose_dice];
    (eapply proper_say; [apply (protocol_dice_options _) |]).
  - apply proper_raise. reflexivity.
  - eapply proper_say; [reflexivity |].
    destruct (Py.isdigit choice); cbn [negb].
    + destruct (Py.int choice) as [c |]; [| apply proper_raise; reflexivity].
      destruct (Py.in_range c _); cbn [negb].
      * destruct (Py.getitem available_dice c);
          [| apply proper_raise; reflexivity].
        eapply proper_say; [reflexivity | apply proper_ret].
      * eapply proper_say; [reflexivity | exact IH].
    + eapply proper_say; [reflexivity | exact IH].
Qed.

Lemma proper_determine_first_turn (lines : list string) :
  forall g, proper_from Idle (DiceGame.determine_first_turn lines g).
Proof.
  induction lines as [| line rest IH]; intros g;
    destruct (generate_secure_random_shape 2 g) as (secret & n & g1 & R & _ & _);
    try lia; cbn [DiceGame.determine_first_turn]; rewrite R;
    (eapply proper_say; [reflexivity |]);
    (eapply proper_say; [unfold DiceGame.guess_menu; run_protocol |]).
  - apply proper_raise. reflexivity.
  - eapply proper_say; [reflexivity |].
    destruct (String.eqb line "2"); [apply proper_raise; reflexivity |].
    destruct (Py.isdigit line); cbn [negb].
    + destruct (Py.int line) as [guess |]; [| apply proper_raise; reflexivity].
      destruct ((guess =? 0) || (guess =? 1)); cbn [negb].
      * eapply proper_say; [run_protocol |].
        destruct (guess =? n);
          (eapply proper_say; [reflexivity | apply proper_ret]).
      * eapply proper_say; [reflexivity | apply IH].
    + eapply proper_say; [reflexivity | apply IH].
Qed.

Lemma proper_roll_dice (self : DiceGame.t) (p : who) (modulo : Z)
  (lines : list string) :
  forall g, proper_from Idle (DiceGame.roll_dice self p modulo lines g).
Proof.
  destruct (Z.leb_spec modulo 0) as [M | M].
  - intros g. destruct (generate_secure_random_refuses modulo g M) as [g1 R].
    destruct lines; cbn [DiceGame.roll_dice]; rewrite R;
      (eapply proper_say; [reflexivity |]);
      (eapply proper_say; [reflexivity |]); apply proper_raise; reflexivity.
  - induction lines as [| line rest IH]; intros g;
      destruct (generate_secure_random_shape modulo g M)
        as (secret & n & g1 & R & _ & _);
      cbn [DiceGame.roll_dice]; rewrite R;
      (eapply proper_say; [reflexivity |]);
      (eapply proper_say;
       [unfold DiceGame.roll_menu; run_protocol;
        rewrite protocol_app, protocol_number_options; reflexivity |]).
    + apply proper_raise. reflexivity.
    + cbv zeta. eapply proper_say; [reflexivity |].
      destruct (String.eqb line (Py.str modulo));
        [apply proper_raise; reflexivity |].
      destruct (Py.isdigit line); cbn [negb].
      * destruct (Py.int line) as [add |]; [| apply proper_raise; reflexivity].
        destruct (Py.in_range add modulo); cbn [negb].
        -- destruct (FairRandom.compute_modular_result add n modulo);
             [| apply proper_raise; reflexivity].
           eapply proper_say; [run_protocol |].
           destruct (DiceGame.roll_assigned self p a);
             [apply proper_ret | apply proper_raise; reflexivity].
        -- eapply proper_say; [reflexivity | apply IH].
      * eapply proper_say; [reflexivity | apply IH].
Qed.

Lemma proper_assign_dice (self : DiceGame.t) (first_turn : who) (w : world) :
  proper_from Idle (DiceGame.assign_dice self first_turn w).
Proof.
  unfold DiceGame.assign_dice. destruct first_turn.
  - apply proper_bind; [apply proper_choose_dice |].
    intros u w'.
    destruct (random.choice _ (gen w')) as [[c | e] g1];
      [| apply proper_raise; reflexivity].
    destruct (Py.getitem (DiceGame.dice self) c);
      [| apply proper_raise; reflexivity].
    eapply proper_say; [reflexivity | apply proper_ret].
  - eapply proper_say; [reflexivity |].
    destruct (random.choice _ (gen w)) as [[c | e] g1];
      [| apply proper_raise; reflexivity].
    destruct (Py.getitem (DiceGame.dice self) c);
      [| apply proper_raise; reflexivity].
    destruct (DiceGame.pick _ _).
    + eapply proper_say; [reflexivity |].
      apply proper_bind; [apply proper_choose_dice |].
      intros u w'. apply proper_ret.
    + eapply proper_say; [reflexivity | apply proper_raise; reflexivity].
Qed.

Lemma proper_play_round (self : DiceGame.t) (w : world) :
  proper_from Idle (DiceGame.play_round self w).
Proof.
  unfold DiceGame.play_round.
  apply proper_bind; [apply proper_determine_first_turn |]. intros first_turn w1.
  apply proper_bind; [apply proper_assign_dice |]. intros self' w2.
  apply proper_bind; [apply proper_roll_dice |]. intros comp_roll w3.
  apply proper_bind; [apply proper_roll_dice |]. intros user_roll w4.
  unfold DiceGame.compare.
  destruct (user_roll >? comp_roll); [| destruct (user_roll <? comp_roll)];
    (eapply proper_say; [reflexivity | apply proper_ret]).
Qed.

Lemma proper_main (args : list string) (w : world) :
  proper_from Idle (main args w).
Proof.
  unfold main. destruct (List.length args <? 3)%nat.
  - eapply proper_say; [reflexivity | apply proper_raise; reflexivity].
  - unfold DiceGame.init. destruct (List.length args <? 3)%nat.
    + eapply proper_say; [reflexivity | apply proper_raise; reflexivity].
    + destruct (DiceGame.build_dice args) as [ds | e].
      * eapply proper_say; [reflexivity | apply proper_play_round].
      * destruct e; (eapply proper_say; [reflexivity | apply proper_raise; reflexivity]).
Qed.

(** What the protocol says of the events before a reveal. *)

Lemma protocol_snoc (s : phase) (tr : list event) (e : event) :
  protocol s (tr ++ [e])
  = match protocol s tr with
    | Some s1 => step s1 e
    | None => None
    end.
Proof.
  rewrite protocol_app. destruct (protocol s tr) as [s1 |]; [| reflexivity].
  cbn [protocol]. destruct (step s1 e); reflexivity.
Qed.

Lemma step_to_contributed (s : phase) (e : event) (key msg : list byte) :
  step s e = Some (Contributed key msg) ->
  s = Committed key msg /\ exists line, e = Input line.
Proof.
  destruct s as [| k m | k m | k m | [|]]; destruct e as [[] | line | k' m'];
    cbn [step]; try discriminate;
    repeat match goal with
           | |- context [if ?c then _ else _] => destruct c
           end; try discriminate.
  intros E. injection E as <- <-. eauto.
Qed.

Lemma step_to_committed (s : phase) (e : event) (key msg : list byte) :
  step s e = Some (Committed key msg) ->
  (s = Sealed key msg
   /\ exists upper, e = Print (Selected upper (Py.hex (Sha3.hmac_sha3_256 key msg))))
  \/ (s = Committed key msg /\ menu_print e = true).
Proof.
  destruct s as [| k m | k m | k m | [|]]; destruct e as [[] | line | k' m'];
    cbn [step]; try discriminate;
    try (intros E; injection E as <- <-; right; split; reflexivity);
    try (destruct (opens k m _ _); discriminate).
  destruct (String.eqb_spec hmac (Py.hex (Sha3.hmac_sha3_256 k m)));
    [| discriminate].
  intros E. injection E as <- <-. subst. left. eauto.
Qed.

Lemma step_reveal (s s1 : phase) (e : event) (num : Z) (key : string) :
  revealed e = Some (num, key) -> step s e = Some s1 ->
  exists k m, s = Contributed k m /\ opens k m num key = true.
Proof.
  destruct e as [[] | line | k' m']; cbn [revealed]; try discriminate;
    intros R; injection R as -> ->;
    destruct s as [| k m | k m | k m | [|]]; cbn [step]; try discriminate;
    destruct (opens k m num key) eqn:O; try discriminate; eauto.
Qed.

Lemma protocol_committed (tr : list event) (key msg : list byte) :
  protocol Idle tr = Some (Committed key msg) ->
  exists before upper menu,
    tr = before
         ++ Print (Selected upper (Py.hex (Sha3.hmac_sha3_256 key msg))) :: menu
    /\ forallb menu_print menu = true.
Proof.
  induction tr as [| e tr IH] using rev_ind; [discriminate |].
  rewrite protocol_snoc. destruct (protocol Idle tr) as [s1 |]; [| discriminate].
  intros S. apply step_to_committed in S.
  destruct S as [[-> [upper ->]] | [-> M]].
  - exists tr, upper, []. split; reflexivity.
  - destruct (IH eq_refl) as (before & upper & menu & -> & F).
    exists before, upper, (menu ++ [e]). split.
    + rewrite <- app_assoc. reflexivity.
    + rewrite forallb_app, F. cbn [forallb]. rewrite M. reflexivity.
Qed.

Lemma protocol_contributed (tr : list event) (key msg : list byte) :
  protocol Idle tr = Some (Contributed key msg) ->
  exists before upper menu line,
    tr = before
         ++ Print (Selected upper (Py.hex (Sha3.hmac_sha3_256 key msg)))
         :: menu ++ [Input line]
    /\ forallb menu_print menu = true.
Proof.
  destruct tr as [| e tr] using rev_ind; [discriminate |].
  rewrite protocol_snoc. destruct (protocol Idle tr) as [s1 |] eqn:P;
    [| discriminate].
  intros S. apply step_to_contributed in S. destruct S as [-> [line ->]].
  destruct (protocol_committed _ _ _ P) as (before & upper & menu & -> & F).
  exists before, upper, menu, line. split; [| exact F].
  rewrite <- app_assoc. reflexivity.
Qed.

Lemma opens_inv (k m : list byte) (num : Z) (key : string) :
  opens k m num key = true -> key = Py.hex k /\ m = Py.encode (Py.str num).
Proof.
  unfold opens. intros H. apply andb_true_iff in H. destruct H as [A B].
  apply String.eqb_eq in A, B. split; [exact A |].
  unfold Py.encode. rewrite <- B. symmetry.
  apply list_byte_of_string_of_list_byte.
Qed.

Lemma reveal_comes_last (tr pre post : list event) (e : event)
  (num : Z) (key : string) :
  follows_protocol tr = true ->
  tr = pre ++ e :: post -> revealed e = Some (num, key) ->
  exists before secret upper menu line,
    pre = before
          ++ Print (Selected upper
                      (Py.hex (Sha3.hmac_sha3_256 secret (Py.encode (Py.str num)))))
          :: menu ++ [Input line]
    /\ forallb menu_print menu = true
    /\ key = Py.hex secret.
Proof.
  unfold follows_protocol. intros F -> R.
  rewrite protocol_app in F.
  destruct (protocol Idle pre) as [s1 |] eqn:P; [| discriminate].
  cbn [protocol] in F. destruct (step s1 e) as [s2 |] eqn:S; [| discriminate].
  destruct (step_reveal _ _ _ _ _ R S) as (k & m & -> & O).
  apply opens_inv in O. destruct O as [-> ->].
  destruct (protocol_contributed _ _ _ P) as (before & upper & menu & line & -> & M).
  exists before, k, upper, menu, line. auto.
Qed.

(** C4. In every run of a round, the events of the exchanges come in the
    order of the protocol, and each reveal of a number and key comes right
    after the line of the counterpart was read, which comes after the menu
    that followed the publication of the tag of that very number under that
    very key: no key is on the console before the contribution is in. *)
Theorem key_revealed_after_contribution (self : DiceGame.t) (w : world) :
  follows_protocol (trace (DiceGame.play_round self w)) = true
  /\ forall pre e post num key,
      trace (DiceGame.play_round self w) = pre ++ e :: post ->
      revealed e = Some (num, key) ->
      exists before secret upper menu line,
        pre = before
              ++ Print (Selected upper
                          (Py.hex (Sha3.hmac_sha3_256 secret
                                     (Py.encode (Py.str num)))))
              :: menu ++ [Input line]
        /\ forallb menu_print menu = true
        /\ key = Py.hex secret.
Proof.
  pose proof (proper_follows _ (proper_play_round self w)) as F.
  split; [exact F |]. intros pre e post num key E R.
  exact (reveal_comes_last _ pre post e num key F E R).
Qed.

Lemma key_revealed_after_contribution_witness :
  let tr := trace (DiceGame.play_round spec_game user_first) in
  follows_protocol tr = true
  /\ exists before secret upper menu line,
      firstn 6 tr
      = before
        ++ Print (Selected upper
                    (Py.hex (Sha3.hmac_sha3_256 secret (Py.encode (Py.str 0)))))
        :: menu ++ [Input line]
      /\ forallb menu_print menu = true
      /\ "0700000000000000000000000000000000000000000000000000000000000000"
         = Py.hex secret.
Proof.
  intros tr. split.
  - apply (key_revealed_after_contribution spec_game user_first).
  - destruct (key_revealed_after_contribution spec_game user_first) as [_ H].
    apply (H (firstn 6 tr) (nth 6 tr (Input "")) (skipn 7 tr) 0).
    + vm_compute. reflexivity.
    + vm_compute. reflexivity.
Defined.

(** ** No verification after the reveal *)

Lemma protocol_digests (tr : list event) :
  forall s s', protocol s tr = Some s' -> settled s' = true ->
               digests_are_commitments tr = true.
Proof.
  induction tr as [| e rest IH]; intros s s' P S; [reflexivity |].
  cbn [protocol] in P. destruct (step s e) as [s1 |] eqn:E; [| discriminate].
  assert (R : digests_are_commitments rest = true) by exact (IH _ _ P S).
  destruct e as [m | line | k m]; cbn [digests_are_commitments]; try exact R.
  rewrite R, andb_true_r.
  destruct s as [| k0 m0 | k0 m0 | k0 m0 | [|]]; try discriminate.
  cbn [step] in E. injection E as <-.
  destruct rest as [| e2 rest']; cbn [protocol] in P.
  - injection P as <-. discriminate.
  - destruct e2 as [[] | line | k2 m2]; cbn [step] in P; try discriminate.
    destruct (String.eqb hmac (Py.hex (Sha3.hmac_sha3_256 k m)));
      [reflexivity | discriminate].
Qed.

Lemma protocol_announces (tr : list event) :
  forall s s', protocol s tr = Some s' -> settled s' = true ->
               reveals_are_announced tr = true.
Proof.
  induction tr as [| e rest IH]; intros s s' P S; [reflexivity |].
  cbn [protocol] in P. destruct (step s e) as [s1 |] eqn:E; [| discriminate].
  assert (R : reveals_are_announced rest = true) by exact (IH _ _ P S).
  cbn [reveals_are_announced]. rewrite R, andb_true_r.
  destruct (revealed e) as [[num key] |] eqn:V; [| reflexivity].
  destruct (step_reveal _ _ _ _ _ V E) as (k & m & -> & O).
  destruct e as [[] | line | k' m']; try discriminate;
    cbn [revealed] in V; injection V as -> ->; cbn [step] in E;
    rewrite O in E; injection E as <-;
    (destruct rest as [| e2 rest']; cbn [protocol] in P;
     [injection P as <-; discriminate |]);
    destruct e2 as [[] | line | k2 m2]; cbn [step] in P; try discriminate;
    reflexivity.
Qed.

(** C3, as the code has it. In every run of a round, each keyed digest that
    is computed is the tag of the commitment published by the very next
    event, and each reveal of a number and key is followed at once by the
    announcement of the result: nothing is recomputed or compared after a
    reveal, and no run ends in a verification failure. *)
Theorem digest_computed_only_to_commit (self : DiceGame.t) (w : world) :
  digests_are_commitments (trace (DiceGame.play_round self w)) = true
  /\ reveals_are_announced (trace (DiceGame.play_round self w)) = true.
Proof.
  destruct (proper_play_round self w) as (s & P & S & _). split.
  - exact (protocol_digests _ _ _ P S).
  - exact (protocol_announces _ _ _ P S).
Qed.

(** C3, as the specification states it, fails: a round that ends with a
    winner has revealed three commitments and recomputed the digest of none
    of them. *)
Lemma round_ends_without_verification :
  reveals_verified (trace (DiceGame.play_round spec_game user_first)) = false
  /\ exists game,
      outcome (DiceGame.play_round spec_game user_first) = Ret (game, ComputerWins).
Proof. split; [vm_compute; reflexivity | eexists; vm_compute; reflexivity]. Qed.

(** ** Dice assignment *)

Lemma choice_in {A} (l : list A) (g g' : rng) (a : A) :
  random.choice l g = (Ret a, g') -> In a l.
Proof.
  unfold random.choice. destruct l as [| x l]; [discriminate |].
  destruct (draw g) as [r g1].
  destruct (nth_error (x :: l) _) as [y |] eqn:E; [| discriminate].
  intros Q. injection Q as <- <-. exact (nth_error_In _ _ E).
Qed.

(** When the user moves first the two choices differ: the computer draws
    among the indices other than the user's (line 140). *)
Lemma user_first_choices_differ (self game : DiceGame.t) (w w' : world)
  (evs : list event) :
  DiceGame.assign_dice self TheUser w = (evs, (Ret game, w')) ->
  Player.dice_choice (DiceGame.user game)
  <> Player.dice_choice (DiceGame.computer game).
Proof.
  unfold DiceGame.assign_dice.
  destruct (Player.choose_dice _ _ _ _) as [evs1 [[u | e] w1]]; cbn [bind];
    [| discriminate].
  destruct (random.choice _ (gen w1)) as [[c | e] g1] eqn:C;
    [| discriminate].
  destruct (Py.getitem (DiceGame.dice self) c); [| discriminate].
  unfold print, say, ret. cbn [fst snd]. intros Q. injection Q as _ <- _.
  cbn [DiceGame.with_choices DiceGame.user DiceGame.computer
       DiceGame.set_choice Player.dice_choice].
  apply choice_in, filter_In in C. destruct C as [_ D].
  intros E. rewrite E in D. cbn [DiceGame.differs] in D.
  rewrite Z.eqb_refl in D. discriminate.
Qed.

(** C1 at a failing input. The computer moves first and draws die 0; the
    user selects entry 0 of the reduced pool, which is shown as die
    [1,1,6,6,8,8]; both players end with dice_choice 0 and the user's throw
    is face 0 of die [2,2,4,4,9,9], the computer's die. *)
Theorem computer_first_same_die :
  let r := main spec_config computer_first in
  exists game v,
    outcome r = Ret (game, v)
    /\ Player.dice_choice (DiceGame.computer game) = Some 0
    /\ Player.dice_choice (DiceGame.user game) = Some 0
    /\ In (Print (IChooseDice [2; 2; 4; 4; 9; 9])) (trace r)
    /\ In (Print (ChoseDice "User" [1; 1; 6; 6; 8; 8])) (trace r)
    /\ In (Print (YourThrow 2)) (trace r)
    /\ DiceGame.roll_assigned game TheUser 0 = Ret 2
    /\ DiceGame.roll_assigned game TheComputer 0 = Ret 2.
Proof.
  eexists _, _. split; [vm_compute; reflexivity |].
  vm_compute. repeat split; auto 70.
Qed.

(** C2 at a failing input. Three dice of three faces are accepted, both
    exchanges of the round run with modulus 6, and the computer's roll, with
    committed face 5 and contribution 0, resolves to index 5 and ends in
    IndexError. *)
Theorem three_faces_rolled_modulo_six :
  let r := main short_config high_face in
  (exists game, DiceGame.init short_config = ([], Ret game)
                /\ face_counts game = [3; 3; 3]%nat)
  /\ In (Print (ExitOption 6)) (trace r)
  /\ In (Print (TheResult 5 0 5 6)) (trace r)
  /\ outcome r = Raise IndexError.
Proof.
  split; [eexists; split; reflexivity |].
  vm_compute. repeat split; auto 70.
Qed.

(** * Further properties of the code *)

(** ** Dice construction and rolls *)

Lemma check_faces_nonnegative (vs : list Z) :
  nonnegative vs = true -> Dice.check_faces vs = Ret tt.
Proof.
  induction vs as [| v rest IH]; cbn [nonnegative forallb Dice.check_faces];
    [reflexivity |].
  intros H. apply andb_true_iff in H. destruct H as [Hv Hr].
  destruct (Z.ltb_spec v 0) as [N | _]; [apply Z.leb_le in Hv; lia |].
  apply IH. exact Hr.
Qed.

Lemma check_faces_first_negative (ok rest : list Z) (v : Z) :
  nonnegative ok = true -> v < 0 ->
  Dice.check_faces (ok ++ v :: rest) = Raise (ValueError (InvalidFaceValue v)).
Proof.
  induction ok as [| x ok IH]; cbn [nonnegative forallb app Dice.check_faces];
    intros H N.
  - destruct (Z.ltb_spec v 0); [reflexivity | lia].
  - apply andb_true_iff in H. destruct H as [Hx Hr].
    destruct (Z.ltb_spec x 0) as [C | _]; [apply Z.leb_le in Hx; lia |].
    apply IH; assumption.
Qed.

(** X1. Dice.__init__ accepts a list of faces exactly when none is negative,
    the empty list included, and keeps the list as it is; otherwise it
    raises ValueError for the first negative face, whatever follows it. *)
Theorem dice_init_rejects_first_negative (vs : list Z) :
  (nonnegative vs = true -> Dice.init vs = Ret {| Dice.values := vs |})
  /\ (forall ok v rest,
        vs = ok ++ v :: rest -> nonnegative ok = true -> v < 0 ->
        Dice.init vs = Raise (ValueError (InvalidFaceValue v))).
Proof.
  unfold Dice.init. split.
  - intros H. rewrite (check_faces_nonnegative vs H). reflexivity.
  - intros ok v rest -> H N. rewrite (check_faces_first_negative ok rest v H N).
    reflexivity.
Qed.

Lemma dice_init_rejects_first_negative_witness :
  Dice.init [3; 0; 5] = Ret {| Dice.values := [3; 0; 5] |}
  /\ Dice.init [3; -1; 5; -2] = Raise (ValueError (InvalidFaceValue (-1))).
Proof.
  split.
  - apply (dice_init_rejects_first_negative [3; 0; 5]). reflexivity.
  - apply (dice_init_rejects_first_negative [3; -1; 5; -2]) with (ok := [3]) (rest := [5; -2]);
      [reflexivity | reflexivity | lia].
Defined.

Lemma check_faces_inv (vs : list Z) :
  Dice.check_faces vs = Ret tt -> forall v, In v vs -> 0 <= v.
Proof.
  induction vs as [| x rest IH]; cbn [Dice.check_faces]; intros H v I;
    [destruct I |].
  destruct (Z.ltb_spec x 0) as [N | P]; [discriminate |].
  destruct I as [<- | I]; [exact P | exact (IH H v I)].
Qed.

Lemma getitem_in {A} (l : list A) (i : Z) (a : A) :
  Py.getitem l i = Some a -> In a l.
Proof.
  unfold Py.getitem.
  destruct (0 <=? i); [apply nth_error_In |].
  destruct (- Z.of_nat (List.length l) <=? i); [apply nth_error_In | discriminate].
Qed.

Lemma roll_in (d : Dice.t) (i v : Z) :
  Dice.roll d i = Ret v -> In v (Dice.values d).
Proof.
  unfold Dice.roll. destruct (Py.getitem (Dice.values d) i) as [x |] eqn:E;
    [| discriminate].
  intros Q. injection Q as <-. exact (getitem_in _ _ _ E).
Qed.

(** X2. A die that Dice.__init__ built only rolls faces of the list it was
    built from, and every one of them is non-negative, at whatever index
    (negative ones included) the roll succeeds. *)
Theorem constructed_die_rolls_its_faces (vs : list Z) (d : Dice.t) (i v : Z) :
  Dice.init vs = Ret d -> Dice.roll d i = Ret v -> In v vs /\ 0 <= v.
Proof.
  unfold Dice.init. destruct (Dice.check_faces vs) as [[] |] eqn:C;
    [| discriminate].
  intros Q R. injection Q as <-. apply roll_in in R. cbn [Dice.values] in R.
  split; [exact R | exact (check_faces_inv vs C v R)].
Qed.

Lemma constructed_die_rolls_its_faces_witness :
  In 9 [2; 2; 4; 4; 9; 9] /\ 0 <= 9.
Proof.
  apply (constructed_die_rolls_its_faces [2; 2; 4; 4; 9; 9] spec_die (-1) 9);
    reflexivity.
Defined.

(** ** The combiner beyond its intended range *)

Lemma mod_below_twice (x m : Z) :
  0 < m -> 0 <= x < 2 * m -> x mod m = if x <? m then x else x - m.
Proof.
  intros M B. destruct (Z.ltb_spec x m) as [L | G].
  - apply Z.mod_small. lia.
  - symmetry. apply (Z.mod_unique x m 1); lia.
Qed.

(** X3. For a positive limit and a committed value in [0, limit), the
    combination is a permutation of [0, limit) in the other party's choice:
    every target in the range is reached by exactly one choice of the range. *)
Theorem combine_is_a_permutation (face limit target : Z) :
  0 < limit -> 0 <= face < limit -> 0 <= target < limit ->
  exists add,
    0 <= add < limit
    /\ FairRandom.compute_modular_result add face limit = Ret target
    /\ forall add',
        0 <= add' < limit ->
        FairRandom.compute_modular_result add' face limit = Ret target ->
        add' = add.
Proof.
  intros M F T. unfold FairRandom.compute_modular_result.
  destruct (Z.eqb_spec limit 0) as [E | _]; [lia |].
  exists ((target - face) mod limit).
  pose proof (Z.mod_pos_bound (target - face) limit M) as B.
  assert (V : (target - face) mod limit
              = if target - face <? 0 then target - face + limit else target - face).
  { destruct (Z.ltb_spec (target - face) 0) as [N | P].
    - symmetry. apply (Z.mod_unique (target - face) limit (-1)); lia.
    - apply Z.mod_small. lia. }
  split; [exact B |]. rewrite V. clear V B. split.
  - f_equal. destruct (Z.ltb_spec (target - face) 0);
      rewrite mod_below_twice by lia;
      match goal with |- context [?x <? limit] => destruct (Z.ltb_spec x limit) end;
      lia.
  - intros add' A Q. injection Q as Q.
    rewrite mod_below_twice in Q by lia.
    destruct (Z.ltb_spec (add' + face) limit);
      destruct (Z.ltb_spec (target - face) 0); lia.
Qed.

Lemma combine_is_a_permutation_witness :
  exists add,
    0 <= add < 6
    /\ FairRandom.compute_modular_result add 4 6 = Ret 0
    /\ forall add',
        0 <= add' < 6 ->
        FairRandom.compute_modular_result add' 4 6 = Ret 0 ->
        add' = add.
Proof. apply (combine_is_a_permutation 4 6 0); lia. Defined.

(** X4. Outside its intended range compute_modular_result still follows
    Python's %: with limit 0 it raises ZeroDivisionError; with a positive
    limit any two integers, negative ones included, give a result in
    [0, limit); with a negative limit the result lies in (limit, 0]; and the
    two choices can be swapped. *)
Theorem combine_edge_cases (a b limit : Z) :
  (limit = 0 -> FairRandom.compute_modular_result a b limit = Raise ZeroDivisionError)
  /\ (0 < limit ->
      exists r, FairRandom.compute_modular_result a b limit = Ret r /\ 0 <= r < limit)
  /\ (limit < 0 ->
      exists r, FairRandom.compute_modular_result a b limit = Ret r /\ limit < r <= 0)
  /\ FairRandom.compute_modular_result a b limit
     = FairRandom.compute_modular_result b a limit.
Proof.
  unfold FairRandom.compute_modular_result. repeat split.
  - intros ->. reflexivity.
  - intros P. destruct (Z.eqb_spec limit 0); [lia |].
    eexists. split; [reflexivity | apply Z.mod_pos_bound; exact P].
  - intros N. destruct (Z.eqb_spec limit 0); [lia |].
    eexists. split; [reflexivity | apply Z.mod_neg_bound; exact N].
  - rewrite (Z.add_comm a b). reflexivity.
Qed.

Lemma combine_edge_cases_witness :
  FairRandom.compute_modular_result 3 4 0 = Raise ZeroDivisionError
  /\ (exists r, FairRandom.compute_modular_result (-7) 2 6 = Ret r /\ 0 <= r < 6)
  /\ (exists r, FairRandom.compute_modular_result 3 4 (-6) = Ret r /\ -6 < r <= 0).
Proof.
  split; [apply (combine_edge_cases 3 4 0); reflexivity |].
  split; [apply (combine_edge_cases (-7) 2 6); lia |].
  apply (combine_edge_cases 3 4 (-6)); lia.
Defined.

(** ** The commitment engine at its edges *)

Lemma generate_secure_random_cursor (limit : Z) (g : rng) :
  let r := FairRandom.generate_secure_random limit g in
  draws (snd (snd r)) = draws g
  /\ cursor (snd (snd r))
     = if 0 <? limit then S (S (cursor g)) else S (cursor g).
Proof.
  unfold FairRandom.generate_secure_random, secrets.token_bytes,
    secrets.randbelow, draw.
  destruct (Z.leb_spec limit 0) as [C | C];
    destruct (Z.ltb_spec 0 limit) as [D | D]; try lia; split; reflexivity.
Qed.

(** X5. generate_secure_random yields a commitment exactly when the limit is
    positive, and then it has computed one digest and taken two draws (key,
    then number).  With a limit of 0 or less it raises ValueError after the
    key was drawn, and no digest is computed. *)
Theorem commitment_needs_positive_limit (limit : Z) (g : rng) :
  let r := FairRandom.generate_secure_random limit g in
  (0 < limit ->
   returned (fst (snd r)) = true
   /\ commitments (fst r) = 1%nat
   /\ cursor (snd (snd r)) = S (S (cursor g)))
  /\ (limit <= 0 ->
      fst (snd r) = Raise (ValueError UpperBoundNotPositive)
      /\ fst r = []
      /\ cursor (snd (snd r)) = S (cursor g)).
Proof.
  intros r. pose proof (generate_secure_random_cursor limit g) as [_ C].
  fold r in C. split; intros H.
  - destruct (generate_secure_random_shape limit g H)
      as (secret & n & g1 & R & _ & _).
    destruct (Z.ltb_spec 0 limit); [| lia].
    unfold r in *. rewrite R in *. repeat split. exact C.
  - destruct (generate_secure_random_refuses limit g H) as [g1 R].
    destruct (Z.ltb_spec 0 limit); [lia |].
    unfold r in *. rewrite R in *. repeat split. exact C.
Qed.

Lemma commitment_needs_positive_limit_witness :
  (returned (fst (snd (FairRandom.generate_secure_random 6 (rng_of [7; 4]%N)))) = true
   /\ commitments (fst (FairRandom.generate_secure_random 6 (rng_of [7; 4]%N))) = 1%nat
   /\ cursor (snd (snd (FairRandom.generate_secure_random 6 (rng_of [7; 4]%N))))
      = 2%nat)
  /\ (fst (snd (FairRandom.generate_secure_random 0 (rng_of [7; 4]%N)))
      = Raise (ValueError UpperBoundNotPositive)
      /\ fst (FairRandom.generate_secure_random 0 (rng_of [7; 4]%N)) = []
      /\ cursor (snd (snd (FairRandom.generate_secure_random 0 (rng_of [7; 4]%N))))
         = 1%nat).
Proof.
  split.
  - apply (commitment_needs_positive_limit 6 (rng_of [7; 4]%N)). lia.
  - apply (commitment_needs_positive_limit 0 (rng_of [7; 4]%N)). lia.
Defined.

(** ** Choosing a die *)

Lemma choose_dice_shape (self : Player.t) (available_dice : list Dice.t)
  (lines : list string) (g : rng) :
  forall evs p w,
    Player.choose_dice self available_dice lines g = (evs, (Ret p, w)) ->
    exists before line c d,
      evs = before ++ [Input line; Print (ChoseDice (Player.name self) (Dice.values d))]
      /\ Py.isdigit line = true
      /\ Py.int line = Some c
      /\ 0 <= c < Z.of_nat (List.length available_dice)
      /\ nth_error available_dice (Z.to_nat c) = Some d
      /\ p = {| Player.name := Player.name self; Player.dice_choice := Some c |}
      /\ gen w = g.
Proof.
  induction lines as [| line rest IH]; intros evs p w;
    cbn [Player.choose_dice]; [discriminate |].
  destruct (Py.isdigit line) eqn:D; cbn [negb].
  - destruct (Py.int line) as [c |] eqn:P; [| discriminate].
    destruct (Py.in_range c _) eqn:R; cbn [negb].
    + destruct (Py.getitem available_dice c) as [d |] eqn:G; [| discriminate].
      unfold print, ret. rewrite !say_say. unfold say. cbn [fst snd].
      intros Q. injection Q as <- <- <-.
      unfold Py.in_range in R. apply andb_true_iff in R. destruct R as [R1 R2].
      apply Z.leb_le in R1. apply Z.ltb_lt in R2.
      unfold Py.getitem in G. destruct (Z.leb_spec 0 c); [| lia].
      exists (Player.menu self available_dice), line, c, d.
      rewrite <- !app_assoc, app_nil_r. cbn [app]. auto 10.
    + destruct (Player.choose_dice self available_dice rest g)
        as [evs' [r' w']] eqn:E.
      unfold print. rewrite !say_say. unfold say. cbn [fst snd].
      intros Q. injection Q as <- -> ->.
      destruct (IH _ _ _ eq_refl) as (before & l' & c' & d' & -> & rest_facts).
      exists ((Player.menu self available_dice ++ [Input line] ++ [Print InvalidSelection])
              ++ before), l', c', d'.
      rewrite <- !app_assoc. split; [reflexivity | exact rest_facts].
  - destruct (Player.choose_dice self available_dice rest g)
      as [evs' [r' w']] eqn:E.
    unfold print. rewrite !say_say. unfold say. cbn [fst snd].
    intros Q. injection Q as <- -> ->.
    destruct (IH _ _ _ eq_refl) as (before & l' & c' & d' & -> & rest_facts).
    exists ((Player.menu self available_dice ++ [Input line] ++ [Print InvalidSelection])
            ++ before), l', c', d'.
    rewrite <- !app_assoc. split; [reflexivity | exact rest_facts].
Qed.

(** X6. Whenever choose_dice returns, the line it accepted is a digit string
    that int reads as an index c of the list it offered; the player comes
    back under the same name with dice_choice = c, the die announced is
    entry c of that list, and no randomness was drawn. *)
Theorem choose_dice_selects_offered (self : Player.t)
  (available_dice : list Dice.t) (lines : list string) (g : rng)
  (evs : list event) (p : Player.t) (w : world) :
  Player.choose_dice self available_dice lines g = (evs, (Ret p, w)) ->
  exists before line c d,
    evs = before ++ [Input line; Print (ChoseDice (Player.name self) (Dice.values d))]
    /\ Py.isdigit line = true
    /\ Py.int line = Some c
    /\ 0 <= c < Z.of_nat (List.length available_dice)
    /\ nth_error available_dice (Z.to_nat c) = Some d
    /\ p = {| Player.name := Player.name self; Player.dice_choice := Some c |}
    /\ gen w = g.
Proof.
  intros H.
  exact (choose_dice_shape self available_dice lines g evs p w H).
Qed.

Lemma choose_dice_selects_offered_witness :
  exists before line c d,
    trace (Player.choose_dice (Player.init "User") (DiceGame.dice spec_game)
             ["9"; "x"; "2"] (rng_of []))
    = before ++ [Input line; Print (ChoseDice "User" (Dice.values d))]
    /\ Py.isdigit line = true
    /\ Py.int line = Some c
    /\ 0 <= c < 3
    /\ nth_error (DiceGame.dice spec_game) (Z.to_nat c) = Some d
    /\ {| Player.name := "User"; Player.dice_choice := Some 2 |}
       = {| Player.name := "User"; Player.dice_choice := Some c |}
    /\ rng_of [] = rng_of [].
Proof.
  apply (choose_dice_selects_offered (Player.init "User") (DiceGame.dice spec_game)
           ["9"; "x"; "2"] (rng_of []) _ _ {| gen := rng_of []; stdin := [] |}).
  vm_compute. reflexivity.
Defined.

(** ** What a step reveals *)

Lemma reveals_app (a b : list event) : reveals (a ++ b) = (reveals a + reveals b)%nat.
Proof. unfold reveals. rewrite filter_app, length_app. reflexivity. Qed.

Lemma commitments_app (a b : list event) :
  commitments (a ++ b) = (commitments a + commitments b)%nat.
Proof. unfold commitments. rewrite filter_app, length_app. reflexivity. Qed.

Lemma number_options_quiet (l : list Z) :
  reveals (map (fun i => Print (NumberOption i)) l) = 0%nat
  /\ commitments (map (fun i => Print (NumberOption i)) l) = 0%nat.
Proof. induction l as [| i l IH]; [split; reflexivity | exact IH]. Qed.

Lemma dice_options_quiet (l : list (Z * Dice.t)) :
  reveals (map (fun '(idx, d) => Print (DiceOption idx (Dice.values d))) l) = 0%nat
  /\ commitments (map (fun '(idx, d) => Print (DiceOption idx (Dice.values d))) l)
     = 0%nat.
Proof. induction l as [| [idx d] l IH]; [split; reflexivity | exact IH]. Qed.

Lemma roll_menu_quiet (modulo : Z) (tag : string) :
  reveals (DiceGame.roll_menu modulo tag) = 0%nat
  /\ commitments (DiceGame.roll_menu modulo tag) = 0%nat.
Proof.
  unfold DiceGame.roll_menu.
  rewrite !reveals_app, !commitments_app.
  destruct (number_options_quiet (Py.range modulo)) as [-> ->].
  split; reflexivity.
Qed.

(** The counts of a run assembled with [say]. *)
Ltac count_say :=
  unfold print; rewrite ?say_say; rewrite ?trace_say, ?outcome_say;
  rewrite ?reveals_app, ?commitments_app.

Lemma determine_first_turn_counts (lines : list string) :
  forall g,
    let r := DiceGame.determine_first_turn lines g in
    reveals (trace r) = (if returned (outcome r) then 1 else 0)%nat
    /\ (1 <= commitments (trace r))%nat.
Proof.
  induction lines as [| line rest IH]; intros g;
    destruct (generate_secure_random_shape 2 g) as (secret & n & g1 & R & _ & _);
    try lia; cbn [DiceGame.determine_first_turn]; rewrite R; cbv zeta.
  - count_say. split; cbn; lia.
  - destruct (String.eqb line "2"); [count_say; split; cbn; lia |].
    destruct (Py.isdigit line); cbn [negb].
    + destruct (Py.int line) as [guess |]; [| count_say; split; cbn; lia].
      destruct ((guess =? 0) || (guess =? 1)); cbn [negb].
      * destruct (guess =? n); count_say; split; cbn; lia.
      * destruct (IH g1) as [A B]. count_say. rewrite A.
        split; [reflexivity | cbn; lia].
    + destruct (IH g1) as [A B]. count_say. rewrite A.
      split; [reflexivity | cbn; lia].
Qed.

Lemma roll_dice_counts (self : DiceGame.t) (p : who) (modulo : Z)
  (lines : list string) :
  forall g,
    let r := DiceGame.roll_dice self p modulo lines g in
    reveals (trace r)
    = (if returned (outcome r) || lookup_failed (outcome r) then 1 else 0)%nat
    /\ (reveals (trace r) <= commitments (trace r))%nat.
Proof.
  destruct (Z.leb_spec modulo 0) as [M | M].
  - intros g. destruct (generate_secure_random_refuses modulo g M) as [g1 R].
    destruct lines; cbn [DiceGame.roll_dice]; rewrite R; cbv zeta;
      count_say; split; cbn; lia.
  - induction lines as [| line rest IH]; intros g;
      destruct (generate_secure_random_shape modulo g M)
        as (secret & n & g1 & R & _ & _);
      cbn [DiceGame.roll_dice]; rewrite R; cbv zeta;
      destruct (roll_menu_quiet modulo
                  (Py.hex (Sha3.hmac_sha3_256 secret (Py.encode (Py.str n)))))
        as [Q1 Q2].
    + count_say. rewrite Q1, Q2. split; cbn; lia.
    + destruct (String.eqb line (Py.str modulo));
        [count_say; rewrite Q1, Q2; split; cbn; lia |].
      destruct (Py.isdigit line); cbn [negb].
      * destruct (Py.int line) as [add |];
          [| count_say; rewrite Q1, Q2; split; cbn; lia].
        destruct (Py.in_range add modulo); cbn [negb].
        -- unfold FairRandom.compute_modular_result.
           destruct (Z.eqb_spec modulo 0); [lia |].
           destruct (DiceGame.roll_assigned self p _) as [v | e] eqn:A.
           ++ count_say. rewrite Q1, Q2. split; cbn; lia.
           ++ unfold DiceGame.roll_assigned in A.
              assert (L : lookup_failed (@Raise Z e) = true).
              { destruct (Player.dice_choice _);
                  [| injection A as <-; reflexivity].
                destruct (Py.getitem _ _) as [d |];
                  [| injection A as <-; reflexivity].
                unfold Dice.roll in A.
                destruct (Py.getitem _ _); [discriminate |].
                injection A as <-. reflexivity. }
              count_say. rewrite Q1, Q2. unfold raise, outcome. cbn [fst snd].
              rewrite L. split; cbn; lia.
        -- destruct (IH g1) as [A B]. count_say. rewrite Q1, Q2.
           split; [rewrite A; reflexivity | cbn; lia].
      * destruct (IH g1) as [A B]. count_say. rewrite Q1, Q2.
        split; [rewrite A; reflexivity | cbn; lia].
Qed.

(** X7. A step opens a commitment only when it accepts the contribution,
    however many commitments the rejected lines before caused: the run of
    determine_first_turn reveals exactly one number and key when the step
    returns and none otherwise; the run of roll_dice reveals exactly one when
    the step returns or fails in the lookup of the die face that follows the
    reveal (IndexError, TypeError), and none when it ends in any other way.
    The commitments of abandoned attempts stay closed. *)
Theorem abandoned_commitments_stay_closed
  (self : DiceGame.t) (p : who) (modulo : Z) (lines : list string) (g : rng) :
  let first := DiceGame.determine_first_turn lines g in
  let roll := DiceGame.roll_dice self p modulo lines g in
  reveals (trace first) = (if returned (outcome first) then 1 else 0)%nat
  /\ (reveals (trace first) <= commitments (trace first))%nat
  /\ reveals (trace roll)
     = (if returned (outcome roll) || lookup_failed (outcome roll) then 1 else 0)%nat
  /\ (reveals (trace roll) <= commitments (trace roll))%nat.
Proof.
  intros first roll.
  destruct (determine_first_turn_counts lines g) as [A B].
  destruct (roll_dice_counts self p modulo lines g) as [C D].
  fold first in A, B. fold roll in C, D.
  repeat split; try assumption.
  rewrite A. destruct (returned (outcome first)); lia.
Qed.

(** ** What a roll returns *)

Lemma roll_assigned_inv (self : DiceGame.t) (p : who) (i v : Z) :
  DiceGame.roll_assigned self p i = Ret v ->
  exists d, assigned_die self p = Some d /\ Dice.roll d i = Ret v.
Proof.
  unfold DiceGame.roll_assigned, assigned_die.
  destruct (Player.dice_choice (DiceGame.player self p)) as [c |];
    [| discriminate].
  destruct (Py.getitem (DiceGame.dice self) c) as [d |]; [| discriminate].
  eauto.
Qed.

(** Two spellings of one list of events. *)
Ltac list_eq :=
  unfold DiceGame.roll_menu, DiceGame.guess_menu;
  repeat (progress (rewrite <- ?app_assoc; cbn [app]));
  rewrite ?app_nil_r; reflexivity.

Lemma roll_dice_shape (self : DiceGame.t) (p : who) (modulo : Z)
  (lines : list string) :
  forall g evs v w,
    DiceGame.roll_dice self p modulo lines g = (evs, (Ret v, w)) ->
    exists before secret face line add d,
      evs = before
            ++ [Input line; Print (MyNumber face (Py.hex secret));
                Print (TheResult face add ((add + face) mod modulo) modulo)]
      /\ In (Print (Selected (modulo - 1)
                      (Py.hex (Sha3.hmac_sha3_256 secret (Py.encode (Py.str face))))))
            before
      /\ 0 <= face < modulo
      /\ Py.int line = Some add
      /\ 0 <= add < modulo
      /\ assigned_die self p = Some d
      /\ Dice.roll d ((add + face) mod modulo) = Ret v.
Proof.
  destruct (Z.leb_spec modulo 0) as [M | M].
  - intros g evs v w. destruct (generate_secure_random_refuses modulo g M) as [g1 R].
    destruct lines; cbn [DiceGame.roll_dice]; rewrite R; discriminate.
  - induction lines as [| line rest IH]; intros g evs v w;
      destruct (generate_secure_random_shape modulo g M)
        as (secret & n & g1 & R & _ & B);
      cbn [DiceGame.roll_dice]; rewrite R; cbv zeta; [discriminate |].
    destruct (String.eqb line (Py.str modulo)); [discriminate |].
    destruct (Py.isdigit line); cbn [negb].
    + destruct (Py.int line) as [add |] eqn:P; [| discriminate].
      destruct (Py.in_range add modulo) eqn:V; cbn [negb].
      * unfold FairRandom.compute_modular_result.
        destruct (Z.eqb_spec modulo 0); [lia |].
        destruct (DiceGame.roll_assigned self p ((add + n) mod modulo))
          as [v' |] eqn:A; [| discriminate].
        unfold print, ret. rewrite !say_say. unfold say. cbn [fst snd].
        intros Q. injection Q as <- <- <-.
        destruct (roll_assigned_inv _ _ _ _ A) as (d & AD & RD).
        unfold Py.in_range in V. apply andb_true_iff in V. destruct V as [V1 V2].
        apply Z.leb_le in V1. apply Z.ltb_lt in V2.
        exists (Print (TimeForThrow (Player.name (DiceGame.player self p)))
                :: Hmac secret (Py.encode (Py.str n))
                :: DiceGame.roll_menu modulo
                     (Py.hex (Sha3.hmac_sha3_256 secret (Py.encode (Py.str n))))),
          secret, n, line, add, d.
        split; [unfold DiceGame.roll_menu;
                repeat (rewrite <- ?app_assoc; cbn [app]);
                rewrite ?app_nil_r; reflexivity |].
        split; [right; right; left; reflexivity |]. auto 10.
      * destruct (DiceGame.roll_dice self p modulo rest g1) as [evs' [r' w']] eqn:E.
        unfold print. rewrite !say_say. unfold say. cbn [fst snd].
        intros Q. injection Q as <- -> ->.
        destruct (IH _ _ _ _ E) as (before & s' & f' & l' & a' & d' & -> & I & facts).
        exists ((Print (TimeForThrow (Player.name (DiceGame.player self p)))
                 :: Hmac secret (Py.encode (Py.str n))
                 :: DiceGame.roll_menu modulo
                      (Py.hex (Sha3.hmac_sha3_256 secret (Py.encode (Py.str n))))
                 ++ [Input line; Print InvalidSelection]) ++ before),
          s', f', l', a', d'.
        split; [list_eq |].
        split; [apply in_or_app; right; exact I | exact facts].
    + destruct (DiceGame.roll_dice self p modulo rest g1) as [evs' [r' w']] eqn:E.
      unfold print. rewrite !say_say. unfold say. cbn [fst snd].
      intros Q. injection Q as <- -> ->.
      destruct (IH _ _ _ _ E) as (before & s' & f' & l' & a' & d' & -> & I & facts).
      exists ((Print (TimeForThrow (Player.name (DiceGame.player self p)))
               :: Hmac secret (Py.encode (Py.str n))
               :: DiceGame.roll_menu modulo
                    (Py.hex (Sha3.hmac_sha3_256 secret (Py.encode (Py.str n))))
               ++ [Input line; Print InvalidSelection]) ++ before),
        s', f', l', a', d'.
      split; [list_eq |].
      split; [apply in_or_app; right; exact I | exact facts].
Qed.

(** X8. Whenever roll_dice returns a throw, the accepted line is an integer
    add in [0, modulo), the commitment published before it was to a face in
    [0, modulo), that face and its key are revealed right after the line,
    the index announced is (add + face) mod modulo, and the throw is the
    face at that index of the die at the player's dice_choice in the pool. *)
Theorem roll_returns_face_of_assigned_die (self : DiceGame.t) (p : who)
  (modulo : Z) (lines : list string) (g : rng)
  (evs : list event) (v : Z) (w : world) :
  DiceGame.roll_dice self p modulo lines g = (evs, (Ret v, w)) ->
  exists before secret face line add d,
    evs = before
          ++ [Input line; Print (MyNumber face (Py.hex secret));
              Print (TheResult face add ((add + face) mod modulo) modulo)]
    /\ In (Print (Selected (modulo - 1)
                    (Py.hex (Sha3.hmac_sha3_256 secret (Py.encode (Py.str face))))))
          before
    /\ 0 <= face < modulo
    /\ Py.int line = Some add
    /\ 0 <= add < modulo
    /\ assigned_die self p = Some d
    /\ Dice.roll d ((add + face) mod modulo) = Ret v
    /\ In v (Dice.values d).
Proof.
  intros H.
  destruct (roll_dice_shape self p modulo lines g evs v w H)
    as (before & secret & face & line & add & d & E & I & F & P & A & D & R).
  exists before, secret, face, line, add, d.
  repeat split; try assumption; try apply F; try apply A.
  exact (roll_in _ _ _ R).
Qed.

Lemma roll_returns_face_of_assigned_die_witness :
  let self := {| DiceGame.dice := DiceGame.dice spec_game;
                 DiceGame.user := DiceGame.set_choice (DiceGame.user spec_game) 1;
                 DiceGame.computer := DiceGame.computer spec_game |} in
  exists before secret face line add d,
    trace (DiceGame.roll_dice self TheUser 6 ["8"; "5"] (rng_of [7; 3; 9; 2]%N))
    = before
      ++ [Input line; Print (MyNumber face (Py.hex secret));
          Print (TheResult face add ((add + face) mod 6) 6)]
    /\ In (Print (Selected (6 - 1)
                    (Py.hex (Sha3.hmac_sha3_256 secret (Py.encode (Py.str face))))))
          before
    /\ 0 <= face < 6
    /\ Py.int line = Some add
    /\ 0 <= add < 6
    /\ assigned_die self TheUser = Some d
    /\ Dice.roll d ((add + face) mod 6) = Ret 1
    /\ In 1 (Dice.values d).
Proof.
  intros self.
  apply (roll_returns_face_of_assigned_die self TheUser 6 ["8"; "5"]
           (rng_of [7; 3; 9; 2]%N) _ 1
           {| gen := {| draws := draws (rng_of [7; 3; 9; 2]%N); cursor := 4 |};
              stdin := [] |}).
  vm_compute. reflexivity.
Defined.

Lemma roll_assigned_in_range (self : DiceGame.t) (p : who) (d : Dice.t) (i : Z) :
  assigned_die self p = Some d ->
  0 <= i < Z.of_nat (List.length (Dice.values d)) ->
  exists v, DiceGame.roll_assigned self p i = Ret v.
Proof.
  unfold assigned_die, DiceGame.roll_assigned.
  destruct (Player.dice_choice (DiceGame.player self p)) as [c |];
    [| discriminate].
  intros -> B. unfold Dice.roll. rewrite (getitem_inside _ _ 0 B). eauto.
Qed.

Lemma roll_dice_sound (self : DiceGame.t) (p : who) (modulo : Z) (d : Dice.t)
  (lines : list string) :
  assigned_die self p = Some d ->
  0 < modulo <= Z.of_nat (List.length (Dice.values d)) ->
  forall g, faulty (outcome (DiceGame.roll_dice self p modulo lines g)) = false.
Proof.
  intros D M.
  induction lines as [| line rest IH]; intros g;
    destruct (generate_secure_random_shape modulo g) as (secret & n & g1 & R & _ & B);
    try lia; cbn [DiceGame.roll_dice]; rewrite R; cbv zeta;
    unfold print; rewrite ?say_say, outcome_say; [reflexivity |].
  destruct (String.eqb line (Py.str modulo)); [reflexivity |].
  destruct (Py.isdigit line); cbn [negb]; [| rewrite outcome_say; apply IH].
  destruct (Py.int line) as [add |]; [| reflexivity].
  destruct (Py.in_range add modulo) eqn:V; cbn [negb];
    [| rewrite outcome_say; apply IH].
  unfold FairRandom.compute_modular_result.
  destruct (Z.eqb_spec modulo 0); [lia |].
  pose proof (Z.mod_pos_bound (add + n) modulo) as Q.
  destruct (roll_assigned_in_range self p d ((add + n) mod modulo) D) as [v ->];
    [lia | reflexivity].
Qed.

(** X9. A roll for a player whose die has at least modulo faces (modulo > 0)
    never fails in the program's own indexing or arithmetic: it returns a
    throw, or ends by the user's exit, the end of the input, or a line that
    int refuses. *)
Theorem roll_on_long_enough_die_is_sound (self : DiceGame.t) (p : who)
  (modulo : Z) (d : Dice.t) (lines : list string) (g : rng) :
  assigned_die self p = Some d ->
  0 < modulo <= Z.of_nat (List.length (Dice.values d)) ->
  faulty (outcome (DiceGame.roll_dice self p modulo lines g)) = false.
Proof. intros D M. exact (roll_dice_sound self p modulo d lines D M g). Qed.

Lemma roll_on_long_enough_die_is_sound_witness :
  let self := {| DiceGame.dice := DiceGame.dice spec_game;
                 DiceGame.user := DiceGame.set_choice (DiceGame.user spec_game) 1;
                 DiceGame.computer := DiceGame.computer spec_game |} in
  faulty (outcome (DiceGame.roll_dice self TheUser 6 ["8"; "5"]
                     (rng_of [7; 3; 9; 2]%N))) = false.
Proof.
  intros self.
  apply (roll_on_long_enough_die_is_sound self TheUser 6
           {| Dice.values := [1; 1; 6; 6; 8; 8] |}).
  - reflexivity.
  - simpl. lia.
Defined.

(** ** Dice assignment *)

Lemma in_range_list (c n : Z) : In c (Py.range n) <-> 0 <= c < n.
Proof.
  unfold Py.range. rewrite in_map_iff. split.
  - intros (k & <- & I). apply in_seq in I. lia.
  - intros B. exists (Z.to_nat c). split; [lia | apply in_seq; lia].
Qed.

Lemma remove_subset (x : Z) (l : list Z) (y : Z) :
  In y (Py.remove x l) -> In y l.
Proof.
  induction l as [| z l IH]; cbn [Py.remove]; [auto |].
  destruct (x =? z); [right; assumption |].
  intros [<- | I]; [left; reflexivity | right; exact (IH I)].
Qed.

Lemma remove_seq_nth (m : nat) :
  forall a k j : nat,
    (k < m)%nat -> (j < m - 1)%nat ->
    nth_error (Py.remove (Z.of_nat (a + k)) (map Z.of_nat (seq a m))) j
    = Some (Z.of_nat (if (j <? k)%nat then a + j else a + j + 1)).
Proof.
  induction m as [| m IH]; intros a k j K J; [lia |].
  cbn [seq map Py.remove].
  destruct (Z.eqb_spec (Z.of_nat (a + k)) (Z.of_nat a)) as [E | E].
  - assert (k = 0)%nat by lia. subst k.
    rewrite nth_error_map, nth_error_seq.
    destruct (Nat.ltb_spec j m); [| lia]. cbn [option_map].
    destruct (Nat.ltb_spec j 0); [lia |]. f_equal. lia.
  - destruct k as [| k]; [rewrite Nat.add_0_r in E; congruence |].
    destruct j as [| j]; cbn [nth_error].
    + destruct (Nat.ltb_spec 0 (S k)); [| lia]. f_equal. lia.
    + replace (a + S k)%nat with (S a + k)%nat by lia.
      rewrite (IH (S a) k j) by lia.
      destruct (Nat.ltb_spec j k); destruct (Nat.ltb_spec (S j) (S k)); try lia;
        f_equal; lia.
Qed.

Lemma remove_seq_length (m : nat) :
  forall a k : nat,
    (k < m)%nat ->
    List.length (Py.remove (Z.of_nat (a + k)) (map Z.of_nat (seq a m)))
    = (m - 1)%nat.
Proof.
  induction m as [| m IH]; intros a k K; [lia |].
  cbn [seq map Py.remove].
  destruct (Z.eqb_spec (Z.of_nat (a + k)) (Z.of_nat a)) as [E | E].
  - rewrite length_map, length_seq. lia.
  - destruct k as [| k]; [rewrite Nat.add_0_r in E; congruence |].
    cbn [List.length]. replace (a + S k)%nat with (S a + k)%nat by lia.
    rewrite (IH (S a) k) by lia. lia.
Qed.

(** The reduced pool of line 135: entry [j] is index [j] below the die
    taken out and index [j + 1] from there on. *)
Lemma reduced_pool (n c j : Z) :
  0 <= c < n -> 0 <= j < n - 1 ->
  nth_error (Py.remove c (Py.range n)) (Z.to_nat j) = Some (offered_index c j)
  /\ Z.of_nat (List.length (Py.remove c (Py.range n))) = n - 1.
Proof.
  intros C J. unfold Py.range, offered_index.
  assert (E : Py.remove c (map Z.of_nat (seq 0 (Z.to_nat n)))
              = Py.remove (Z.of_nat (0 + Z.to_nat c))
                  (map Z.of_nat (seq 0 (Z.to_nat n)))) by (f_equal; lia).
  rewrite E. clear E. split.
  - rewrite remove_seq_nth by lia.
    destruct (Nat.ltb_spec (Z.to_nat j) (Z.to_nat c));
      destruct (Z.ltb_spec j c); try lia; f_equal; lia.
  - rewrite remove_seq_length by lia. lia.
Qed.

Lemma pick_spec (ds : list Dice.t) (idxs : list Z) :
  forall offered,
    DiceGame.pick ds idxs = Ret offered ->
    List.length offered = List.length idxs
    /\ forall j i, nth_error idxs j = Some i ->
                   nth_error offered j = Py.getitem ds i.
Proof.
  induction idxs as [| idx rest IH]; intros offered; cbn [DiceGame.pick].
  - intros Q. injection Q as <-. split; [reflexivity |].
    intros [| j] i; discriminate.
  - destruct (Py.getitem ds idx) as [d |] eqn:G; [| discriminate].
    destruct (DiceGame.pick ds rest) as [tl | e]; [| discriminate].
    intros Q. injection Q as <-. destruct (IH tl eq_refl) as [L N].
    split; [cbn [List.length]; rewrite L; reflexivity |].
    intros [| j] i; cbn [nth_error].
    + intros Q. injection Q as <-. symmetry. exact G.
    + apply N.
Qed.

Lemma pick_total (ds : list Dice.t) (idxs : list Z) :
  (forall i, In i idxs -> 0 <= i < Z.of_nat (List.length ds)) ->
  exists offered, DiceGame.pick ds idxs = Ret offered.
Proof.
  induction idxs as [| idx rest IH]; intros H; cbn [DiceGame.pick];
    [eauto |].
  destruct ds as [| d0 ds']; [specialize (H idx (or_introl eq_refl)); cbn in H; lia |].
  rewrite (getitem_inside (d0 :: ds') idx d0) by (apply H; left; reflexivity).
  destruct IH as [tl ->]; [intros i I; apply H; right; exact I | eauto].
Qed.

Lemma bind_ret_inv {A B} (r : run A) (k : A -> world -> run B)
  (evs : list event) (b : B) (w : world) :
  bind r k = (evs, (Ret b, w)) ->
  exists evs1 a w1 evs2,
    r = (evs1, (Ret a, w1))
    /\ k a w1 = (evs2, (Ret b, w))
    /\ evs = evs1 ++ evs2.
Proof.
  destruct r as [evs1 [[a | e] w1]]; cbn [bind]; [| discriminate].
  destruct (k a w1) as [evs2 [r2 w2]] eqn:K. unfold say. cbn [fst snd].
  intros Q. injection Q as <- -> ->. exists evs1, a, w1, evs2. auto.
Qed.

Lemma choice_ret_nonempty {A} (l : list A) (g : rng) :
  l <> [] -> exists a g', random.choice l g = (Ret a, g').
Proof.
  unfold random.choice. destruct l as [| x l]; [congruence |]. intros _.
  destruct (draw g) as [r g1].
  destruct (nth_error (x :: l) (N.to_nat r mod List.length (x :: l))) eqn:E;
    [eauto |].
  apply nth_error_None in E.
  pose proof (Nat.mod_upper_bound (N.to_nat r) (List.length (x :: l))) as U.
  cbn [List.length] in *. lia.
Qed.

Lemma assign_dice_user_first (self game : DiceGame.t) (w w' : world)
  (evs : list event) :
  DiceGame.assign_dice self TheUser w = (evs, (Ret game, w')) ->
  exists u c,
    DiceGame.dice game = DiceGame.dice self
    /\ Player.dice_choice (DiceGame.user game) = Some u
    /\ Player.dice_choice (DiceGame.computer game) = Some c
    /\ 0 <= u < Z.of_nat (List.length (DiceGame.dice self))
    /\ 0 <= c < Z.of_nat (List.length (DiceGame.dice self))
    /\ u <> c.
Proof.
  unfold DiceGame.assign_dice. intros H.
  apply bind_ret_inv in H. destruct H as (evs1 & p & w1 & evs2 & C & K & _).
  apply choose_dice_shape in C.
  destruct C as (_ & _ & u & _ & _ & _ & _ & U & _ & -> & _).
  cbn [Player.dice_choice] in K.
  destruct (random.choice _ (gen w1)) as [[c | e] g1] eqn:R; [| discriminate].
  destruct (Py.getitem (DiceGame.dice self) c); [| discriminate].
  unfold print, say, ret in K. cbn [fst snd] in K. injection K as _ <- _.
  apply choice_in, filter_In in R. destruct R as [I D].
  apply in_range_list in I. cbn [DiceGame.differs] in D.
  apply negb_true_iff, Z.eqb_neq in D.
  exists u, c. cbn. auto 10.
Qed.

(** X10. When the user moves first and dice assignment returns, the pool is
    unchanged, both players hold an index of the pool, and the two indices
    differ: the computer draws only among the dice the user left. *)
Theorem user_first_assigns_distinct_dice (self game : DiceGame.t) (w w' : world)
  (evs : list event) :
  DiceGame.assign_dice self TheUser w = (evs, (Ret game, w')) ->
  exists u c,
    DiceGame.dice game = DiceGame.dice self
    /\ Player.dice_choice (DiceGame.user game) = Some u
    /\ Player.dice_choice (DiceGame.computer game) = Some c
    /\ 0 <= u < Z.of_nat (List.length (DiceGame.dice self))
    /\ 0 <= c < Z.of_nat (List.length (DiceGame.dice self))
    /\ u <> c.
Proof.
  intros H.
  exact (assign_dice_user_first self game w w' evs H).
Qed.

Lemma user_first_assigns_distinct_dice_witness :
  exists u c,
    DiceGame.dice spec_game = DiceGame.dice spec_game
    /\ Some 1 = Some u
    /\ Some 2 = Some c
    /\ 0 <= u < 3
    /\ 0 <= c < 3
    /\ u <> c.
Proof.
  apply (user_first_assigns_distinct_dice spec_game
           {| DiceGame.dice := DiceGame.dice spec_game;
              DiceGame.user := DiceGame.set_choice (DiceGame.user spec_game) 1;
              DiceGame.computer := DiceGame.set_choice (DiceGame.computer spec_game) 2 |}
           {| gen := rng_of [1]%N; stdin := ["1"] |}
           {| gen := {| draws := draws (rng_of [1]%N); cursor := 1 |}; stdin := [] |}
           (trace (DiceGame.assign_dice spec_game TheUser
                     {| gen := rng_of [1]%N; stdin := ["1"] |}))).
  vm_compute. reflexivity.
Defined.

Lemma assign_dice_computer_first (self game : DiceGame.t) (w w' : world)
  (evs : list event) :
  DiceGame.assign_dice self TheComputer w = (evs, (Ret game, w')) ->
  exists c j shown,
    DiceGame.dice game = DiceGame.dice self
    /\ Player.dice_choice (DiceGame.computer game) = Some c
    /\ Player.dice_choice (DiceGame.user game) = Some j
    /\ 0 <= c < Z.of_nat (List.length (DiceGame.dice self))
    /\ 0 <= j < Z.of_nat (List.length (DiceGame.dice self)) - 1
    /\ Py.getitem (DiceGame.dice self) (offered_index c j) = Some shown
    /\ In (Print (ChoseDice (Player.name (DiceGame.user self)) (Dice.values shown)))
          evs.
Proof.
  unfold DiceGame.assign_dice, print. rewrite ?say_say.
  destruct (random.choice _ (gen w)) as [[c | e] g1] eqn:R; [| discriminate].
  pose proof (choice_in _ _ _ _ R) as I. apply in_range_list in I.
  destruct (Py.getitem (DiceGame.dice self) c) as [d |]; [| discriminate].
  destruct (DiceGame.pick _ _) as [offered | e] eqn:P; [| discriminate].
  rewrite ?say_say. intros H.
  destruct (bind _ _) as [evs0 [r0 w0]] eqn:B.
  unfold say in H. cbn [fst snd] in H. injection H as <- -> ->.
  apply bind_ret_inv in B. destruct B as (evs1 & p & w1 & evs2 & C & K & ->).
  apply choose_dice_shape in C.
  destruct C as (before & line & j & shown & -> & _ & _ & J & N & -> & _).
  unfold ret in K. injection K as <- <- _.
  destruct (pick_spec _ _ _ P) as [L S]. rewrite L in J.
  assert (J' : 0 <= j < Z.of_nat (List.length (DiceGame.dice self)) - 1).
  { destruct (Z.ltb_spec 0 (Z.of_nat (List.length (DiceGame.dice self)) - 1)).
    - destruct (reduced_pool _ c 0 I) as [_ Len]; lia.
    - destruct (reduced_pool (Z.of_nat (List.length (DiceGame.dice self))) c 0 I)
        as [_ Len]; try lia.
      exfalso.
      assert (List.length (DiceGame.dice self) = 1%nat) by lia.
      destruct (DiceGame.dice self) as [| d0 [| d1 ds]]; try discriminate.
      change (Py.range (Z.of_nat (List.length [d0]))) with [0] in J.
      assert (c = 0) by (cbn in I; lia). subst c. cbn in J. lia. }
  destruct (reduced_pool _ c j I J') as [Nth _].
  rewrite (S _ _ Nth) in N.
  exists c, j, shown. cbn. repeat split; try lia; try apply I; auto.
  right. right. apply in_or_app. left.
  apply in_or_app. right. right. left. reflexivity.
Qed.

(** X11. When the computer moves first and dice assignment returns, the pool
    is unchanged, the computer holds an index c of the pool, and the user
    holds the position j typed against the reduced pool, so j is below the
    pool size minus one; the die announced as the user's choice is the pool's
    entry j when j < c and entry j + 1 otherwise, while dice_choice keeps j
    itself. *)
Theorem computer_first_keeps_reduced_index (self game : DiceGame.t)
  (w w' : world) (evs : list event) :
  DiceGame.assign_dice self TheComputer w = (evs, (Ret game, w')) ->
  exists c j shown,
    DiceGame.dice game = DiceGame.dice self
    /\ Player.dice_choice (DiceGame.computer game) = Some c
    /\ Player.dice_choice (DiceGame.user game) = Some j
    /\ 0 <= c < Z.of_nat (List.length (DiceGame.dice self))
    /\ 0 <= j < Z.of_nat (List.length (DiceGame.dice self)) - 1
    /\ Py.getitem (DiceGame.dice self) (offered_index c j) = Some shown
    /\ In (Print (ChoseDice (Player.name (DiceGame.user self)) (Dice.values shown)))
          evs.
Proof.
  intros H.
  exact (assign_dice_computer_first self game w w' evs H).
Qed.

Lemma computer_first_keeps_reduced_index_witness :
  exists c j shown,
    DiceGame.dice spec_game = DiceGame.dice spec_game
    /\ Some 1 = Some c
    /\ Some 1 = Some j
    /\ 0 <= c < 3
    /\ 0 <= j < 3 - 1
    /\ Py.getitem (DiceGame.dice spec_game) (offered_index c j) = Some shown
    /\ In (Print (ChoseDice "User" (Dice.values shown)))
          (trace (DiceGame.assign_dice spec_game TheComputer
                    {| gen := rng_of [1]%N; stdin := ["1"] |})).
Proof.
  apply (computer_first_keeps_reduced_index spec_game
           {| DiceGame.dice := DiceGame.dice spec_game;
              DiceGame.user := DiceGame.set_choice (DiceGame.user spec_game) 1;
              DiceGame.computer := DiceGame.set_choice (DiceGame.computer spec_game) 1 |}
           {| gen := rng_of [1]%N; stdin := ["1"] |}
           {| gen := {| draws := draws (rng_of [1]%N); cursor := 1 |}; stdin := [] |}).
  vm_compute. reflexivity.
Defined.

Lemma trace_bind {A B} (r : run A) (k : A -> world -> run B) :
  trace (bind r k)
  = trace r ++ match r with
               | (_, (Ret a, w)) => trace (k a w)
               | (_, (Raise _, _)) => []
               end.
Proof.
  destruct r as [evs [[a | e] w]]; cbn [bind trace fst]; [reflexivity |].
  rewrite app_nil_r. reflexivity.
Qed.

Lemma choose_dice_quiet (self : Player.t) (available_dice : list Dice.t)
  (lines : list string) (g : rng) :
  reveals (trace (Player.choose_dice self available_dice lines g)) = 0%nat
  /\ commitments (trace (Player.choose_dice self available_dice lines g)) = 0%nat.
Proof.
  induction lines as [| line rest [IH1 IH2]]; cbn [Player.choose_dice];
    unfold Player.menu;
    destruct (dice_options_quiet
                (combine (Py.range (Z.of_nat (List.length available_dice)))
                   available_dice)) as [Q1 Q2].
  - count_say. cbn [reveals commitments filter is_reveal is_digest revealed
                    List.length app]. fold (reveals) (commitments).
    unfold reveals, commitments in *. cbn [filter is_reveal revealed is_digest].
    rewrite Q1, Q2. split; reflexivity.
  - destruct (Py.isdigit line); cbn [negb].
    + destruct (Py.int line) as [c |].
      * destruct (Py.in_range c _); cbn [negb].
        -- destruct (Py.getitem available_dice c); count_say;
             unfold reveals, commitments in *;
             cbn [filter is_reveal revealed is_digest List.length app];
             rewrite Q1, Q2; split; reflexivity.
        -- count_say. unfold reveals, commitments in *.
           cbn [filter is_reveal revealed is_digest List.length app].
           rewrite Q1, Q2, IH1, IH2. split; reflexivity.
      * count_say. unfold reveals, commitments in *.
        cbn [filter is_reveal revealed is_digest List.length app].
        rewrite Q1, Q2. split; reflexivity.
    + count_say. unfold reveals, commitments in *.
      cbn [filter is_reveal revealed is_digest List.length app].
      rewrite Q1, Q2, IH1, IH2. split; reflexivity.
Qed.

Lemma assign_dice_quiet (self : DiceGame.t) (first_turn : who) (w : world) :
  reveals (trace (DiceGame.assign_dice self first_turn w)) = 0%nat
  /\ commitments (trace (DiceGame.assign_dice self first_turn w)) = 0%nat.
Proof.
  unfold DiceGame.assign_dice. destruct first_turn.
  - rewrite trace_bind, reveals_app, commitments_app.
    destruct (choose_dice_quiet (DiceGame.user self) (DiceGame.dice self)
                (stdin w) (gen w)) as [-> ->].
    destruct (Player.choose_dice _ _ _ _) as [evs [[u | e] w1]];
      [| split; reflexivity].
    destruct (random.choice _ (gen w1)) as [[c | e] g1]; [| split; reflexivity].
    destruct (Py.getitem (DiceGame.dice self) c); split; reflexivity.
  - destruct (random.choice _ (gen w)) as [[c | e] g1]; [| split; reflexivity].
    destruct (Py.getitem (DiceGame.dice self) c); [| split; reflexivity].
    destruct (DiceGame.pick _ _) as [offered | e]; [| split; reflexivity].
    count_say. rewrite trace_bind, reveals_app, commitments_app.
    destruct (choose_dice_quiet (DiceGame.user self) offered (stdin w) g1)
      as [-> ->].
    destruct (Player.choose_dice _ _ _ _) as [evs [[u | e] w1]];
      split; reflexivity.
Qed.

Lemma assign_dice_keeps_pool (self game : DiceGame.t) (first_turn : who)
  (w w' : world) (evs : list event) :
  DiceGame.assign_dice self first_turn w = (evs, (Ret game, w')) ->
  DiceGame.dice game = DiceGame.dice self.
Proof.
  destruct first_turn; intros H.
  - apply assign_dice_user_first in H. destruct H as (u & c & D & _). exact D.
  - apply assign_dice_computer_first in H.
    destruct H as (c & j & shown & D & _). exact D.
Qed.

(** ** The verdict of a round *)

Lemma compare_verdict (comp_roll user_roll : Z) :
  let (shown, v) := DiceGame.compare comp_roll user_roll in
  shown = [Print (MyThrow comp_roll); Print (YourThrow user_roll);
           Print (verdict_message v)]
  /\ (v = UserWins <-> comp_roll < user_roll)
  /\ (v = ComputerWins <-> user_roll < comp_roll)
  /\ (v = Draw <-> user_roll = comp_roll).
Proof.
  unfold DiceGame.compare.
  destruct (Z.gtb_spec user_roll comp_roll) as [G | G];
    [| destruct (Z.ltb_spec user_roll comp_roll) as [L | L]];
    (split; [reflexivity |]); repeat split; intros; try discriminate;
    try reflexivity; lia.
Qed.

(** X12. When a round returns, its last three outputs are the computer's
    throw, the user's throw and the verdict; the verdict is for the user
    exactly when the user's throw is the larger, for the computer exactly
    when it is the smaller, and a tie exactly when they are equal.  Each throw
    is a face of the die at that player's dice_choice in the unchanged pool,
    and the round has revealed exactly three commitments. *)
Theorem verdict_follows_throws (self : DiceGame.t) (w : world) (evs : list event)
  (game : DiceGame.t) (v : verdict) (w' : world) :
  DiceGame.play_round self w = (evs, (Ret (game, v), w')) ->
  exists before comp_roll user_roll dc du,
    evs = before ++ [Print (MyThrow comp_roll); Print (YourThrow user_roll);
                     Print (verdict_message v)]
    /\ (v = UserWins <-> comp_roll < user_roll)
    /\ (v = ComputerWins <-> user_roll < comp_roll)
    /\ (v = Draw <-> user_roll = comp_roll)
    /\ DiceGame.dice game = DiceGame.dice self
    /\ assigned_die game TheComputer = Some dc
    /\ assigned_die game TheUser = Some du
    /\ In comp_roll (Dice.values dc)
    /\ In user_roll (Dice.values du)
    /\ reveals evs = 3%nat.
Proof.
  unfold DiceGame.play_round. intros H.
  apply bind_ret_inv in H. destruct H as (e1 & first & w1 & e1' & F & H & ->).
  apply bind_ret_inv in H. destruct H as (e2 & self' & w2 & e2' & A & H & ->).
  apply bind_ret_inv in H. destruct H as (e3 & comp_roll & w3 & e3' & RC & H & ->).
  apply bind_ret_inv in H. destruct H as (e4 & user_roll & w4 & e4' & RU & H & ->).
  pose proof (compare_verdict comp_roll user_roll) as V.
  destruct (DiceGame.compare comp_roll user_roll) as [shown v'].
  unfold say, ret in H. cbn [fst snd] in H. injection H as <- <- <- <-.
  destruct V as (-> & V1 & V2 & V3).
  pose proof (determine_first_turn_counts (stdin w) (gen w)) as [N1 _].
  rewrite F in N1. cbn [trace outcome fst snd returned] in N1.
  pose proof (roll_dice_counts self' TheComputer DiceGame.default_modulo
                (stdin w2) (gen w2)) as [N3 _].
  rewrite RC in N3. cbn [trace outcome fst snd returned orb] in N3.
  pose proof (roll_dice_counts self' TheUser DiceGame.default_modulo
                (stdin w3) (gen w3)) as [N4 _].
  rewrite RU in N4. cbn [trace outcome fst snd returned orb] in N4.
  pose proof (assign_dice_quiet self first w1) as [N2 _].
  rewrite A in N2. cbn [trace fst] in N2.
  pose proof (assign_dice_keeps_pool _ _ _ _ _ _ A) as K.
  apply roll_dice_shape in RC, RU.
  destruct RC as (_ & _ & fc & _ & ac & dc & _ & _ & _ & _ & _ & DC & RC).
  destruct RU as (_ & _ & fu & _ & au & du & _ & _ & _ & _ & _ & DU & RU).
  exists (e1 ++ e2 ++ e3 ++ e4), comp_roll, user_roll, dc, du.
  split; [rewrite app_nil_r, <- !app_assoc; reflexivity |].
  repeat split; try apply V1; try apply V2; try apply V3; try assumption;
    try exact (roll_in _ _ _ RC); try exact (roll_in _ _ _ RU).
  rewrite !reveals_app, N1, N2, N3, N4. destruct v'; reflexivity.
Qed.

Lemma verdict_follows_throws_witness :
  exists before comp_roll user_roll dc du,
    trace (DiceGame.play_round spec_game user_first)
    = before ++ [Print (MyThrow comp_roll); Print (YourThrow user_roll);
                 Print (verdict_message ComputerWins)]
    /\ (ComputerWins = UserWins <-> comp_roll < user_roll)
    /\ (ComputerWins = ComputerWins <-> user_roll < comp_roll)
    /\ (ComputerWins = Draw <-> user_roll = comp_roll)
    /\ DiceGame.dice spec_game = DiceGame.dice spec_game
    /\ Py.getitem (DiceGame.dice spec_game) 2 = Some dc
    /\ Py.getitem (DiceGame.dice spec_game) 1 = Some du
    /\ In comp_roll (Dice.values dc)
    /\ In user_roll (Dice.values du)
    /\ reveals (trace (DiceGame.play_round spec_game user_first)) = 3%nat.
Proof.
  apply (verdict_follows_throws spec_game user_first _
           {| DiceGame.dice := DiceGame.dice spec_game;
              DiceGame.user := DiceGame.set_choice (DiceGame.user spec_game) 1;
              DiceGame.computer := DiceGame.set_choice (DiceGame.computer spec_game) 2 |}
           ComputerWins
           {| gen := {| draws := draws (gen user_first); cursor := 7 |};
              stdin := [] |}).
  vm_compute. reflexivity.
Defined.

(** ** Lines that pass isdigit and fail int *)

Lemma not_two (line : string) : Py.int line = None -> String.eqb line "2" = false.
Proof.
  intros H. destruct (String.eqb_spec line "2") as [-> | _]; [| reflexivity].
  discriminate.
Qed.

(** X13. A line that str.isdigit accepts and int refuses (a superscript
    digit, for one) is not answered by a new prompt: at the turn-order
    prompt, at a roll prompt and at the dice prompt alike the step ends in
    the ValueError of int for that line. *)
Theorem digit_that_is_no_integer_aborts (line : string) :
  Py.isdigit line = true -> Py.int line = None ->
  (forall rest g,
      outcome (DiceGame.determine_first_turn (line :: rest) g)
      = Raise (ValueError (InvalidLiteral line)))
  /\ (forall self p modulo rest g,
         0 < modulo ->
         outcome (DiceGame.roll_dice self p modulo (line :: rest) g)
         = Raise (ValueError (InvalidLiteral line)))
  /\ (forall self available_dice rest g,
         outcome (Player.choose_dice self available_dice (line :: rest) g)
         = Raise (ValueError (InvalidLiteral line))).
Proof.
  intros D P. split; [| split].
  - intros rest g.
    destruct (generate_secure_random_shape 2 g) as (secret & n & g1 & R & _ & _);
      [lia |].
    cbn [DiceGame.determine_first_turn]. rewrite R, (not_two line P), D, P.
    reflexivity.
  - intros self p modulo rest g M.
    destruct (generate_secure_random_shape modulo g M)
      as (secret & n & g1 & R & _ & _).
    cbn [DiceGame.roll_dice]. rewrite R. cbv zeta.
    destruct (String.eqb_spec line (Py.str modulo)) as [-> | _].
    + rewrite int_str in P by lia. discriminate.
    + rewrite D, P. reflexivity.
  - intros self available_dice rest g.
    cbn [Player.choose_dice]. rewrite D, P. reflexivity.
Qed.

Lemma digit_that_is_no_integer_aborts_witness :
  (forall rest g,
      outcome (DiceGame.determine_first_turn (superscript_two :: rest) g)
      = Raise (ValueError (InvalidLiteral superscript_two)))
  /\ (forall self p modulo rest g,
         0 < modulo ->
         outcome (DiceGame.roll_dice self p modulo (superscript_two :: rest) g)
         = Raise (ValueError (InvalidLiteral superscript_two)))
  /\ (forall self available_dice rest g,
         outcome (Player.choose_dice self available_dice (superscript_two :: rest) g)
         = Raise (ValueError (InvalidLiteral superscript_two))).
Proof. apply (digit_that_is_no_integer_aborts superscript_two); reflexivity. Defined.

(** ** How a round can end *)

Section Endings.

(** A property of results that a raised exception carries through [bind]. *)
Variable good : forall A : Type, result A -> bool.

Hypothesis good_raise :
  forall (A B : Type) (e : exn), good A (Raise e) = good B (Raise e).

Lemma good_bind {A B} (r : run A) (k : A -> world -> run B) :
  good A (outcome r) = true ->
  (forall evs a w, r = (evs, (Ret a, w)) -> good B (outcome (k a w)) = true) ->
  good B (outcome (bind r k)) = true.
Proof.
  destruct r as [evs [[a | e] w]]; cbn [bind]; intros G K.
  - rewrite outcome_say. exact (K evs a w eq_refl).
  - unfold outcome in *. cbn [fst snd] in *. rewrite <- G. apply good_raise.
Qed.

End Endings.

Lemma sound_raise (A B : Type) (e : exn) :
  sound A (Raise e) = sound B (Raise e).
Proof. reflexivity. Qed.


Lemma choose_dice_ends (self : Player.t) (available_dice : list Dice.t)
  (lines : list string) (g : rng) :
  let r := Player.choose_dice self available_dice lines g in
  faulty (outcome r) = false /\ exits_with_zero (outcome r) = true.
Proof.
  induction lines as [| line rest IH]; cbn [Player.choose_dice]; cbv zeta;
    unfold print; rewrite ?say_say, outcome_say; [split; reflexivity |].
  destruct (Py.isdigit line); cbn [negb]; [| rewrite outcome_say; exact IH].
  destruct (Py.int line) as [c |]; [| split; reflexivity].
  destruct (Py.in_range c _) eqn:R; cbn [negb]; [| rewrite outcome_say; exact IH].
  unfold Py.in_range in R. apply andb_true_iff in R. destruct R as [R1 R2].
  apply Z.leb_le in R1. apply Z.ltb_lt in R2.
  destruct available_dice as [| d0 ds]; [cbn in R2; lia |].
  rewrite (getitem_inside (d0 :: ds) c d0) by lia. split; reflexivity.
Qed.

Lemma determine_first_turn_ends (lines : list string) :
  forall g,
    let r := DiceGame.determine_first_turn lines g in
    faulty (outcome r) = false /\ exits_with_zero (outcome r) = true.
Proof.
  induction lines as [| line rest IH]; intros g;
    destruct (generate_secure_random_shape 2 g) as (secret & n & g1 & R & _ & _);
    try lia; cbn [DiceGame.determine_first_turn]; rewrite R; cbv zeta;
    unfold print; rewrite ?say_say, outcome_say; [split; reflexivity |].
  destruct (String.eqb line "2"); [split; reflexivity |].
  destruct (Py.isdigit line); cbn [negb]; [| rewrite outcome_say; apply IH].
  destruct (Py.int line) as [guess |]; [| split; reflexivity].
  destruct ((guess =? 0) || (guess =? 1)); cbn [negb];
    [| rewrite outcome_say; apply IH].
  destruct (guess =? n); split; reflexivity.
Qed.


Lemma parse_faces_written (xs : list string) :
  forallb face_ok xs = true ->
  DiceGame.parse_faces xs = Ret (map face_value xs)
  /\ Dice.check_faces (map face_value xs) = Ret tt.
Proof.
  induction xs as [| x rest IH]; cbn [forallb DiceGame.parse_faces map];
    [split; reflexivity |].
  intros H. apply andb_true_iff in H. destruct H as [Hx Hr].
  destruct (IH Hr) as [-> C]. unfold face_ok in Hx.
  assert (V : face_value x = match Py.int x with Some v => v | None => 0 end)
    by reflexivity.
  destruct (Py.int x) as [v |]; [| discriminate]. rewrite V.
  split; [reflexivity |]. cbn [Dice.check_faces].
  destruct (Z.ltb_spec v 0) as [N | _]; [apply Z.leb_le in Hx; lia | exact C].
Qed.

Lemma build_dice_written (dice_sets : list string) :
  forallb die_ok dice_sets = true ->
  DiceGame.build_dice dice_sets = Ret (written_dice dice_sets).
Proof.
  induction dice_sets as [| d rest IH]; cbn [forallb DiceGame.build_dice];
    [reflexivity |].
  intros H. apply andb_true_iff in H. destruct H as [Hd Hr].
  destruct (parse_faces_written _ Hd) as [-> C].
  unfold Dice.init. rewrite C, (IH Hr). reflexivity.
Qed.

Lemma init_builds_the_dice_written_aux (dice_sets : list string) :
  config_ok dice_sets = true ->
  DiceGame.init dice_sets
  = ([], Ret {| DiceGame.dice := written_dice dice_sets;
                DiceGame.user := {| Player.name := "User"; Player.dice_choice := None |};
                DiceGame.computer :=
                  {| Player.name := "Computer"; Player.dice_choice := None |} |}).
Proof.
  unfold config_ok, DiceGame.init. intros H.
  apply andb_true_iff in H. destruct H as [L D].
  rewrite Nat.ltb_antisym, L. cbn [negb].
  rewrite (build_dice_written dice_sets D). reflexivity.
Qed.

(** X14. A well-formed configuration is built into the dice it spells out:
    one die per argument, in the order given, each with the integers of its
    comma-separated fields in their order (signs, surrounding white space and
    underscores read as int reads them); both players start without a die
    and nothing is printed. *)
Theorem init_builds_the_dice_written (dice_sets : list string) :
  config_ok dice_sets = true ->
  DiceGame.init dice_sets
  = ([], Ret {| DiceGame.dice := written_dice dice_sets;
                DiceGame.user := {| Player.name := "User"; Player.dice_choice := None |};
                DiceGame.computer :=
                  {| Player.name := "Computer"; Player.dice_choice := None |} |}).
Proof.
  intros H.
  exact (init_builds_the_dice_written_aux dice_sets H).
Qed.

Lemma init_builds_the_dice_written_witness :
  DiceGame.init [" 1,+2,3_0"; "4,5,6"; "7,8,9"]
  = ([], Ret {| DiceGame.dice := [{| Dice.values := [1; 2; 30] |};
                                  {| Dice.values := [4; 5; 6] |};
                                  {| Dice.values := [7; 8; 9] |}];
                DiceGame.user := {| Player.name := "User"; Player.dice_choice := None |};
                DiceGame.computer :=
                  {| Player.name := "Computer"; Player.dice_choice := None |} |}).
Proof.
  apply (init_builds_the_dice_written [" 1,+2,3_0"; "4,5,6"; "7,8,9"]).
  reflexivity.
Defined.

Lemma differs_nonempty (u n : Z) :
  2 <= n ->
  filter (fun i => DiceGame.differs i (Some u)) (Py.range n) <> [].
Proof.
  intros N E.
  assert (I : In (if u =? 0 then 1 else 0)
                (filter (fun i => DiceGame.differs i (Some u)) (Py.range n))).
  { apply filter_In. split.
    - apply in_range_list. destruct (u =? 0); lia.
    - cbn [DiceGame.differs]. apply negb_true_iff, Z.eqb_neq.
      destruct (Z.eqb_spec u 0); lia. }
  rewrite E in I. destruct I.
Qed.

Lemma range_nonempty (n : Z) : 1 <= n -> Py.range n <> [].
Proof.
  intros N E. assert (I : In 0 (Py.range n)) by (apply in_range_list; lia).
  rewrite E in I. destruct I.
Qed.

Lemma assign_dice_ends (self : DiceGame.t) (first_turn : who) (w : world) :
  let r := DiceGame.assign_dice self first_turn w in
  exits_with_zero (outcome r) = true
  /\ (2 <= Z.of_nat (List.length (DiceGame.dice self)) ->
      faulty (outcome r) = false).
Proof.
  cbv zeta. unfold DiceGame.assign_dice. destruct first_turn.
  - destruct (choose_dice_ends (DiceGame.user self) (DiceGame.dice self)
                (stdin w) (gen w)) as [F Z0]. cbv zeta in F, Z0.
    destruct (Player.choose_dice _ _ _ _) as [evs [[u | e] w1]] eqn:C;
      [| split; [exact Z0 | intros _; exact F]].
    cbn [bind]. rewrite outcome_say.
    apply choose_dice_shape in C.
    destruct C as (_ & _ & c & _ & _ & _ & _ & _ & _ & -> & _).
    cbn [Player.dice_choice].
    destruct (random.choice _ (gen w1)) as [[x | e] g1] eqn:R.
    + pose proof (choice_in _ _ _ _ R) as I. apply filter_In in I.
      destruct I as [I _]. apply in_range_list in I.
      destruct (DiceGame.dice self) as [| d0 ds] eqn:DS; [cbn in I; lia |].
      rewrite (getitem_inside (d0 :: ds) x d0) by lia. split; reflexivity.
    + split.
      * unfold random.choice in R.
        destruct (filter _ _) as [| y l]; [injection R as <- _; reflexivity |].
        destruct (draw (gen w1)) as [r g2].
        destruct (nth_error _ _); [discriminate |].
        injection R as <- _. reflexivity.
      * intros N.
        destruct (choice_ret_nonempty _ (gen w1) (differs_nonempty c _ N))
          as (a & g2 & R'). rewrite R' in R. discriminate.
  - unfold print. rewrite outcome_say.
    destruct (random.choice _ (gen w)) as [[c | e] g1] eqn:R.
    + pose proof (choice_in _ _ _ _ R) as I. apply in_range_list in I.
      destruct (DiceGame.dice self) as [| d0 ds] eqn:DS; [cbn in I; lia |].
      rewrite (getitem_inside (d0 :: ds) c d0) by lia.
      destruct (pick_total (d0 :: ds)
                  (Py.remove c (Py.range (Z.of_nat (List.length (d0 :: ds))))))
        as [offered ->].
      { intros i Hi. apply remove_subset, in_range_list in Hi. exact Hi. }
      rewrite outcome_say.
      destruct (choose_dice_ends (DiceGame.user self) offered (stdin w) g1)
        as [F Z0]. cbv zeta in F, Z0.
      destruct (Player.choose_dice _ _ _ _) as [evs [[u | e] w1]];
        split; try reflexivity; try exact Z0; intros _; exact F.
    + split.
      * unfold random.choice in R.
        destruct (Py.range _) as [| y l]; [injection R as <- _; reflexivity |].
        destruct (draw (gen w)) as [r g2].
        destruct (nth_error _ _); [discriminate |].
        injection R as <- _. reflexivity.
      * intros N.
        destruct (choice_ret_nonempty (Py.range (Z.of_nat (List.length (DiceGame.dice self))))
                    (gen w)) as (a & g2 & R'); [apply range_nonempty; lia |].
        rewrite R' in R. discriminate.
Qed.

Lemma assign_dice_assigns (self game : DiceGame.t) (first_turn : who)
  (w w' : world) (evs : list event) (p : who) :
  DiceGame.assign_dice self first_turn w = (evs, (Ret game, w')) ->
  exists d, assigned_die game p = Some d /\ In d (DiceGame.dice self).
Proof.
  intros H.
  assert (C : exists c, Player.dice_choice (DiceGame.player game p) = Some c
                        /\ 0 <= c < Z.of_nat (List.length (DiceGame.dice self))
                        /\ DiceGame.dice game = DiceGame.dice self).
  { destruct first_turn.
    - apply assign_dice_user_first in H.
      destruct H as (u & c & D & U & C & BU & BC & _).
      destruct p; [exists u | exists c]; auto.
    - apply assign_dice_computer_first in H.
      destruct H as (c & j & shown & D & C & U & BC & BJ & _).
      destruct p; [exists j | exists c]; repeat split; auto; lia. }
  destruct C as (c & E & B & D). unfold assigned_die. rewrite E, D.
  destruct (DiceGame.dice self) as [| d0 ds] eqn:DS; [cbn in B; lia |].
  rewrite (getitem_inside (d0 :: ds) c d0 B).
  eexists. split; [reflexivity |]. apply nth_In. lia.
Qed.


Lemma long_enough_in (ds : list Dice.t) (d : Dice.t) :
  long_enough ds = true -> In d ds ->
  0 < DiceGame.default_modulo <= Z.of_nat (List.length (Dice.values d)).
Proof.
  unfold long_enough. rewrite forallb_forall. intros H I.
  specialize (H d I). apply Z.leb_le in H. split; [reflexivity | exact H].
Qed.

Lemma play_round_sound (self : DiceGame.t) (w : world) :
  2 <= Z.of_nat (List.length (DiceGame.dice self)) ->
  long_enough (DiceGame.dice self) = true ->
  faulty (outcome (DiceGame.play_round self w)) = false.
Proof.
  intros N L. apply negb_true_iff. unfold DiceGame.play_round.
  apply (good_bind sound sound_raise).
  { apply negb_true_iff, determine_first_turn_ends. }
  intros e1 first w1 _.
  apply (good_bind sound sound_raise).
  { apply negb_true_iff. apply assign_dice_ends. exact N. }
  intros e2 self' w2 A.
  destruct (assign_dice_assigns _ _ _ _ _ _ TheComputer A) as (dc & DC & IC).
  destruct (assign_dice_assigns _ _ _ _ _ _ TheUser A) as (du & DU & IU).
  apply (good_bind sound sound_raise).
  { apply negb_true_iff.
    exact (roll_dice_sound self' TheComputer _ dc _ DC (long_enough_in _ _ L IC) _). }
  intros e3 comp_roll w3 _.
  apply (good_bind sound sound_raise).
  { apply negb_true_iff.
    exact (roll_dice_sound self' TheUser _ du _ DU (long_enough_in _ _ L IU) _). }
  intros e4 user_roll w4 _.
  destruct (DiceGame.compare comp_roll user_roll). reflexivity.
Qed.



Lemma written_dice_long_enough (dice_sets : list string) :
  long_enough_config dice_sets = true -> long_enough (written_dice dice_sets) = true.
Proof.
  unfold long_enough_config, long_enough, written_dice.
  induction dice_sets as [| d rest IH]; cbn [forallb map]; [reflexivity |].
  intros H. apply andb_true_iff in H. destruct H as [Hd Hr].
  cbn [Dice.values]. rewrite length_map, Hd. exact (IH Hr).
Qed.

(** X16. With a well-formed configuration in which every die has at least
    six faces, no run of the script fails in the program's own indexing or
    arithmetic (IndexError, TypeError, ZeroDivisionError, a bound of
    randbelow): whatever is typed and drawn, it ends with a verdict, with the
    user's exit, at the end of the input, or on a line that int refuses. *)
Theorem six_faced_game_never_faults (args : list string) (w : world) :
  config_ok args = true -> long_enough_config args = true ->
  faulty (outcome (main args w)) = false.
Proof.
  intros C L. pose proof C as C'. unfold config_ok in C'.
  apply andb_true_iff in C'. destruct C' as [N D].
  unfold main. rewrite Nat.ltb_antisym, N. cbn [negb].
  rewrite (init_builds_the_dice_written_aux args C). rewrite outcome_say.
  apply play_round_sound; cbn [DiceGame.dice].
  - unfold written_dice. rewrite length_map. apply Nat.leb_le in N. lia.
  - apply written_dice_long_enough. exact L.
Qed.

Lemma six_faced_game_never_faults_witness :
  faulty (outcome (main spec_config computer_first)) = false.
Proof.
  apply (six_faced_game_never_faults spec_config computer_first); reflexivity.
Defined.

(** ** Randomness spent *)

Lemma generate_secure_random_spends (limit : Z) (g g1 : rng)
  (evs : list event) (c : Z * string * string) :
  FairRandom.generate_secure_random limit g = (evs, (Ret c, g1)) ->
  draws g1 = draws g /\ cursor g1 = S (S (cursor g)).
Proof.
  intros R. pose proof (generate_secure_random_cursor limit g) as [D C].
  rewrite R in D, C. cbn [snd] in D, C. split; [exact D |].
  destruct (Z.ltb_spec 0 limit) as [P | N]; [exact C |].
  destruct (generate_secure_random_refuses limit g N) as [g2 R'].
  rewrite R' in R. discriminate.
Qed.

Ltac spend_say :=
  unfold print, raise, ret; rewrite ?say_say; unfold say, trace;
  cbn [fst snd gen]; rewrite ?commitments_app.

Lemma determine_first_turn_spends (lines : list string) :
  forall g,
    let r := DiceGame.determine_first_turn lines g in
    draws (gen (snd (snd r))) = draws g
    /\ cursor (gen (snd (snd r))) = (cursor g + 2 * commitments (trace r))%nat.
Proof.
  induction lines as [| line rest IH]; intros g;
    destruct (generate_secure_random_shape 2 g) as (secret & n & g1 & R & _ & _);
    try lia; destruct (generate_secure_random_spends _ _ _ _ _ R) as [D C];
    cbn [DiceGame.determine_first_turn]; rewrite R; cbv zeta.
  - spend_say. split; [exact D | cbn; lia].
  - destruct (String.eqb line "2"); [spend_say; split; [exact D | cbn; lia] |].
    destruct (Py.isdigit line); cbn [negb].
    + destruct (Py.int line) as [guess |];
        [| spend_say; split; [exact D | cbn; lia]].
      destruct ((guess =? 0) || (guess =? 1)); cbn [negb].
      * destruct (guess =? n); spend_say; split; try exact D; cbn; lia.
      * destruct (IH g1) as [A B]. cbv zeta in A, B.
        destruct (DiceGame.determine_first_turn rest g1) as [evs' [r' w']].
        unfold trace in *. cbn [fst snd] in A, B. spend_say.
        rewrite A, B, D, C. split; [reflexivity | cbn; lia].
    + destruct (IH g1) as [A B]. cbv zeta in A, B.
      destruct (DiceGame.determine_first_turn rest g1) as [evs' [r' w']].
      unfold trace in *. cbn [fst snd] in A, B. spend_say.
      rewrite A, B, D, C. split; [reflexivity | cbn; lia].
Qed.

Lemma roll_dice_spends (self : DiceGame.t) (p : who) (modulo : Z)
  (lines : list string) :
  0 < modulo ->
  forall g,
    let r := DiceGame.roll_dice self p modulo lines g in
    draws (gen (snd (snd r))) = draws g
    /\ cursor (gen (snd (snd r))) = (cursor g + 2 * commitments (trace r))%nat.
Proof.
  intros M.
  induction lines as [| line rest IH]; intros g;
    destruct (generate_secure_random_shape modulo g M)
      as (secret & n & g1 & R & _ & _);
    destruct (generate_secure_random_spends _ _ _ _ _ R) as [D C];
    cbn [DiceGame.roll_dice]; rewrite R; cbv zeta;
    destruct (roll_menu_quiet modulo
                (Py.hex (Sha3.hmac_sha3_256 secret (Py.encode (Py.str n)))))
      as [_ Q].
  - spend_say. rewrite Q. split; [exact D | cbn; lia].
  - destruct (String.eqb line (Py.str modulo));
      [spend_say; rewrite Q; split; [exact D | cbn; lia] |].
    destruct (Py.isdigit line); cbn [negb].
    + destruct (Py.int line) as [add |];
        [| spend_say; rewrite Q; split; [exact D | cbn; lia]].
      destruct (Py.in_range add modulo); cbn [negb].
      * destruct (FairRandom.compute_modular_result add n modulo);
          [| spend_say; rewrite Q; split; [exact D | cbn; lia]].
        destruct (DiceGame.roll_assigned self p a);
          spend_say; rewrite Q; split; try exact D; cbn; lia.
      * destruct (IH g1) as [A B]. cbv zeta in A, B.
        destruct (DiceGame.roll_dice self p modulo rest g1) as [evs' [r' w']].
        unfold trace in *. cbn [fst snd] in A, B. spend_say.
        rewrite Q, A, B, D, C. split; [reflexivity | cbn; lia].
    + destruct (IH g1) as [A B]. cbv zeta in A, B.
      destruct (DiceGame.roll_dice self p modulo rest g1) as [evs' [r' w']].
      unfold trace in *. cbn [fst snd] in A, B. spend_say.
      rewrite Q, A, B, D, C. split; [reflexivity | cbn; lia].
Qed.

(** X17. Every attempt of a step works on a commitment of its own: the runs
    of determine_first_turn and, for a positive modulus, of roll_dice take
    exactly two draws (a key and a number) for each commitment they create
    and none for anything else, so a rejected line is always answered with a
    freshly drawn key and number. *)
Theorem each_commitment_is_freshly_drawn (self : DiceGame.t) (p : who)
  (modulo : Z) (lines : list string) (g : rng) :
  0 < modulo ->
  let first := DiceGame.determine_first_turn lines g in
  let roll := DiceGame.roll_dice self p modulo lines g in
  cursor (gen (snd (snd first))) = (cursor g + 2 * commitments (trace first))%nat
  /\ cursor (gen (snd (snd roll))) = (cursor g + 2 * commitments (trace roll))%nat
  /\ draws (gen (snd (snd first))) = draws g
  /\ draws (gen (snd (snd roll))) = draws g.
Proof.
  intros M first roll.
  destruct (determine_first_turn_spends lines g) as [A B].
  destruct (roll_dice_spends self p modulo lines M g) as [C D].
  repeat split; assumption.
Qed.

Lemma each_commitment_is_freshly_drawn_witness :
  let first := DiceGame.determine_first_turn ["7"; "x"; "1"] (rng_of [7; 0; 9; 1; 3; 0]%N) in
  let roll := DiceGame.roll_dice spec_game TheUser 6 ["7"; "x"; "1"]
                (rng_of [7; 0; 9; 1; 3; 0]%N) in
  cursor (gen (snd (snd first))) = (0 + 2 * commitments (trace first))%nat
  /\ cursor (gen (snd (snd roll))) = (0 + 2 * commitments (trace roll))%nat
  /\ draws (gen (snd (snd first))) = draws (rng_of [7; 0; 9; 1; 3; 0]%N)
  /\ draws (gen (snd (snd roll))) = draws (rng_of [7; 0; 9; 1; 3; 0]%N).
Proof.
  apply (each_commitment_is_freshly_drawn spec_game TheUser 6 ["7"; "x"; "1"]
           (rng_of [7; 0; 9; 1; 3; 0]%N)).
  lia.
Defined.
